(** * XenonPy [xenonpy/utils/useful_cls.py]: Timer and TimedMetaClass

    A shallow embedding of the named-stopwatch registry [Timer], its slot
    class [Timer._Timer], and the metaclass [TimedMetaClass] that wraps the
    functions of a class body with timed wrappers.

    Conventions of the embedding.
    - Clock readings are integers ([Z]): Python integers are unbounded, so
      a fake clock returning integers is modelled exactly.  A clock is the
      sequence of values its successive calls return plus the number of
      calls made so far.
    - A number is represented by its value.  The floats that occur are
      conversions of integers ([all_ + 0.0]): such a float is the double
      nearest to the integer, its value is an integer again, and the
      conversion raises [OverflowError] beyond the range of doubles.
    - Every Python function that mutates [self] or reads a clock takes the
      object and the [World] (the clocks) and returns them updated, next
      to its outcome ([Return v] or [Raise e]).
    - A [dict] is an association list in insertion order with at most one
      entry per key; [setitem] overwrites in place or appends. *)

From Stdlib Require Import ZArith List String Ascii Bool Lia.
From Stdlib Require Import Permutation Sorted.
From Stdlib Require Floats.SpecFloat.
Import ListNotations.

Local Open Scope string_scope.
Local Open Scope Z_scope.

(** ** Outcomes and exceptions *)

Inductive exn : Type :=
| RuntimeError (msg : string)
| TypeError (msg : string)
| AttributeError (msg : string)
| OverflowError (msg : string)
| DomainError (code : Z).          (* a failure raised by user code *)

Inductive outcome (A : Type) : Type :=
| Return (a : A)
| Raise (e : exn).
Arguments Return {A} a.
Arguments Raise {A} e.

Definition is_Return {A} (o : outcome A) : bool :=
  match o with Return _ => true | Raise _ => false end.

(** ** Clocks *)

Record clock : Type := mkClock { readings : nat -> Z; calls : nat }.

(** One call of a clock: the next reading, and the clock advanced. *)
Definition tick (c : clock) : Z * clock :=
  (readings c (calls c), mkClock (readings c) (S (calls c))).

(** What [Timer._func] can refer to: [time.perf_counter] itself (the
    default argument of [Timer.__init__]) or a clock passed by the caller. *)
Inductive time_func : Type := perf_counter | injected.

Record World : Type := mkWorld { time_perf_counter : clock; fake_clock : clock }.

Definition call_time_func (f : time_func) (w : World) : Z * World :=
  match f with
  | perf_counter =>
      let (t, c) := tick (time_perf_counter w) in (t, mkWorld c (fake_clock w))
  | injected =>
      let (t, c) := tick (fake_clock w) in (t, mkWorld (time_perf_counter w) c)
  end.

(** The clock a [time_func] reads. *)
Definition clock_of (f : time_func) (w : World) : clock :=
  match f with perf_counter => time_perf_counter w | injected => fake_clock w end.

(** ** Dictionaries in insertion order *)

Section Dict.
Context {V : Type}.

Fixpoint lookup (k : string) (d : list (string * V)) : option V :=
  match d with
  | [] => None
  | (k', v) :: d' => if String.eqb k k' then Some v else lookup k d'
  end.

(** [k in d] *)
Definition contains (k : string) (d : list (string * V)) : bool :=
  match lookup k d with Some _ => true | None => false end.

(** [d[k] = v]: overwrite in place, or append a new entry. *)
Fixpoint setitem (k : string) (v : V) (d : list (string * V)) : list (string * V) :=
  match d with
  | [] => [(k, v)]
  | (k', v') :: d' =>
      if String.eqb k k' then (k', v) :: d' else (k', v') :: setitem k v d'
  end.

Definition keys (d : list (string * V)) : list string := map fst d.
Definition values (d : list (string * V)) : list V := map snd d.
End Dict.

(** [sum(xs)]: left fold from 0. *)
Definition sum (xs : list Z) : Z := fold_left Z.add xs 0.

(** ** Conversion of an int to a float

    A double has a significand of 53 bits.  A non-negative integer [a] of
    more than 53 bits loses its [k = bit_length(a) - 53] low bits: it is
    rounded to the nearest multiple of [2^k], a tie going to the multiple
    whose quotient by [2^k] is even. *)
Definition round_half_even (a k : Z) : Z :=
  if k <=? 0 then a
  else
    let q := Z.shiftr a k in
    let r := a - Z.shiftl q k in
    let half := Z.shiftl 1 (k - 1) in
    let q' := if (half <? r) || ((r =? half) && Z.odd q) then q + 1 else q in
    Z.shiftl q' k.

(** The value of the double nearest to the non-negative integer [a]. *)
Definition nearest_double (a : Z) : Z := round_half_even a (Z.log2 a - 52).

(** [float(z)], as done by [z + 0.0]: the value of the conversion, or
    [OverflowError] when the nearest double would be [2^1024] or more. *)
Definition int_to_float (z : Z) : outcome Z :=
  let v := nearest_double (Z.abs z) in
  if 2 ^ 1024 <=? v
  then Raise (OverflowError "int too large to convert to float")
  else Return (Z.sgn z * v).

(** The same conversion by the binary64 rounding of the standard library
    ([SpecFloat]), to compare with. *)
Definition int_to_float_ieee (z : Z) : outcome Z :=
  match SpecFloat.binary_normalize 53 1024 z 0 false with
  | SpecFloat.S754_zero _ => Return 0
  | SpecFloat.S754_finite s m e =>
      let v := if 0 <=? e then Z.shiftl (Z.pos m) e else Z.shiftr (Z.pos m) (- e) in
      Return (if s then - v else v)
  | _ => Raise (OverflowError "int too large to convert to float")
  end.

(** ** [sorted(iterable, key=..., reverse=...)]

    Python's sort is stable.  A stable sort has one possible result, so
    the insertion sort below returns the list [sorted] returns.  With
    [reverse=True] CPython reverses the list, sorts it, and reverses the
    result, which keeps elements with equal keys in their original order. *)

Section Sorted.
Context {A : Type} (key : A -> Z).

Fixpoint insert_by (x : A) (l : list A) : list A :=
  match l with
  | [] => [x]
  | y :: l' => if key x <=? key y then x :: l else y :: insert_by x l'
  end.

Definition stable_sort (l : list A) : list A := fold_right insert_by [] l.

Definition sorted (reverse : bool) (l : list A) : list A :=
  if reverse then rev (stable_sort (rev l)) else stable_sort l.
End Sorted.

(** [dict(pairs)]: later pairs overwrite earlier ones with the same key. *)
Definition dict {V : Type} (pairs : list (string * V)) : list (string * V) :=
  fold_left (fun d kv => setitem (fst kv) (snd kv) d) pairs [].

(** The newline character, and ["\n".join(lines)]. *)
Definition nl : string := String (ascii_of_nat 10) EmptyString.
Definition join_lines (lines : list string) : string := String.concat nl lines.

(** ** class Timer._Timer *)

Module _Timer.

Record t : Type := mk { start : option Z; times : list Z }.

(** [__init__]: [self.start = None; self.times = []] *)
Definition __init__ : t := mk None [].

(** Truth value of [self.start]: [None] and [0] are false. *)
Definition truthy (s : option Z) : bool :=
  match s with
  | None => false
  | Some z => negb (z =? 0)
  end.

(** [elapsed] (property):
    [all_ = sum(self.times)];
    [dt = time.perf_counter() - self.start if self.start else 0.0];
    [return all_ + dt].  The clock read is [time.perf_counter], and it is
    read only when [self.start] is true; the result is then the integer
    [all_ + dt].  Otherwise [dt] is the float [0.0], and [all_ + 0.0]
    converts the integer [all_] to a float. *)
Definition elapsed (self : t) (w : World) : outcome Z * World :=
  let all_ := sum (times self) in
  if truthy (start self) then
    let (now, c) := tick (time_perf_counter w) in
    (Return (all_ + (now - match start self with Some s => s | None => 0 end)),
     mkWorld c (fake_clock w))
  else (int_to_float all_, w).

(** [__repr__]: [f'elapsed: {timedelta(seconds=self.elapsed)} <seconds>'];
    [str_timedelta v] stands for [str(timedelta(seconds=v))]. *)
Definition __repr__ (str_timedelta : Z -> string) (self : t) (w : World)
  : outcome string * World :=
  match elapsed self w with
  | (Raise e, w') => (Raise e, w')
  | (Return e, w') => (Return ("elapsed: " ++ str_timedelta e ++ " <seconds>"), w')
  end.

End _Timer.

(** ** class Timer *)

Module Timer.

Record t : Type := mk { _func : time_func; _timers : list (string * _Timer.t) }.

(** [__init__(self, time_func=time.perf_counter)] *)
Definition __init__ (time_func : time_func) : t := mk time_func [].

(** [self._timers[k]] on a [defaultdict(_Timer)]: a missing key is
    inserted with a fresh [_Timer()] before it is returned. *)
Definition getitem (k : string) (d : list (string * _Timer.t))
  : _Timer.t * list (string * _Timer.t) :=
  match lookup k d with
  | Some s => (s, d)
  | None => (_Timer.__init__, (d ++ [(k, _Timer.__init__)])%list)
  end.

Definition already_started (fn_name : string) : exn :=
  RuntimeError ("Timer <" ++ fn_name ++ "> Already started").
Definition not_started (fn_name : string) : exn :=
  RuntimeError ("Timer <" ++ fn_name ++ "> not started").

(** [start(self, fn_name='main')] *)
Definition start (fn_name : string) (self : t) (w : World)
  : outcome unit * t * World :=
  let (s, d) := getitem fn_name (_timers self) in
  match _Timer.start s with
  | Some _ => (Raise (already_started fn_name), mk (_func self) d, w)
  | None =>
      let (now, w') := call_time_func (_func self) w in
      let (s', d') := getitem fn_name d in
      (Return tt,
       mk (_func self) (setitem fn_name (_Timer.mk (Some now) (_Timer.times s')) d'),
       w')
  end.

(** [stop(self, fn_name='main')] *)
Definition stop (fn_name : string) (self : t) (w : World)
  : outcome unit * t * World :=
  let (s, d) := getitem fn_name (_timers self) in
  match _Timer.start s with
  | None => (Raise (not_started fn_name), mk (_func self) d, w)
  | Some _ =>
      let (now, w') := call_time_func (_func self) w in
      let (s1, d1) := getitem fn_name d in
      let elapsed := now - match _Timer.start s1 with Some t0 => t0 | None => 0 end in
      let (s2, d2) := getitem fn_name d1 in
      let d3 := setitem fn_name (_Timer.mk (_Timer.start s2) (_Timer.times s2 ++ [elapsed])%list) d2 in
      let (s4, d4) := getitem fn_name d3 in
      (Return tt,
       mk (_func self) (setitem fn_name (_Timer.mk None (_Timer.times s4)) d4),
       w')
  end.

(** [sum(v.elapsed for v in ...)]: the slots are read in order, each
    read threading the world; a read that raises ends the sum.  The values
    are added as numbers. *)
Fixpoint sum_elapsed (vs : list _Timer.t) (acc : Z) (w : World)
  : outcome Z * World :=
  match vs with
  | [] => (Return acc, w)
  | v :: vs' =>
      match _Timer.elapsed v w with
      | (Raise e, w') => (Raise e, w')
      | (Return e, w') => sum_elapsed vs' (acc + e) w'
      end
  end.

(** [elapsed] (property):
    [if 'main' in self._timers: return self._timers['main'].elapsed];
    [return sum(v.elapsed for v in self._timers.values())].
    The registry is returned too, since [self._timers[...]] is the
    inserting lookup. *)
Definition elapsed (self : t) (w : World) : outcome Z * t * World :=
  if contains "main" (_timers self) then
    let (s, d) := getitem "main" (_timers self) in
    let (e, w') := _Timer.elapsed s w in
    (e, mk (_func self) d, w')
  else
    let (e, w') := sum_elapsed (values (_timers self)) 0 w in
    (e, self, w').

(** The pairs [(k, v.elapsed)] for [k, v] in [self._timers.items()],
    the slots read in registry order. *)
Fixpoint items_elapsed (d : list (string * _Timer.t)) (w : World)
  : outcome (list (string * Z)) * World :=
  match d with
  | [] => (Return [], w)
  | (k, v) :: d' =>
      match _Timer.elapsed v w with
      | (Raise e, w1) => (Raise e, w1)
      | (Return e, w1) =>
          match items_elapsed d' w1 with
          | (Raise e', w2) => (Raise e', w2)
          | (Return rest, w2) => (Return ((k, e) :: rest), w2)
          end
      end
  end.

(** One line of the report: [f'  |- {k}: {timedelta(seconds=v)}']. *)
Definition report_line (str_timedelta : Z -> string) (kv : string * Z) : string :=
  "  |- " ++ fst kv ++ ": " ++ str_timedelta (snd kv).

(** The pairs the report lists, in the order it lists them:
    [tmp = dict(sorted(tmp.items(), key=lambda t: t[1]))] and then
    [sorted(tmp.items(), key=lambda t: t[1], reverse=True)]. *)
Definition report_order (tmp : list (string * Z)) : list (string * Z) :=
  let tmp' := dict (sorted snd false tmp) in
  sorted snd true tmp'.

(** The lines after the first one, from the pairs [(k, v.elapsed)]. *)
Definition report_lines (str_timedelta : Z -> string) (pairs : list (string * Z))
  : list string :=
  let tmp := dict pairs in          (* {k: v.elapsed for k, v in ...} *)
  map (report_line str_timedelta) (report_order tmp).

(** [__repr__].  [str_timedelta v] stands for [str(timedelta(seconds=v))]
    of the standard library. *)
Definition __repr__ (str_timedelta : Z -> string) (self : t) (w : World)
  : outcome string * t * World :=
  match items_elapsed (_timers self) w with
  | (Raise e, w1) => (Raise e, self, w1)
  | (Return pairs, w1) =>
      match elapsed self w1 with
      | (Raise e, self', w2) => (Raise e, self', w2)
      | (Return total, self', w2) =>
          (Return ("Total elapsed: " ++ str_timedelta total ++ " <seconds>" ++ nl
                     ++ join_lines (report_lines str_timedelta pairs)),
           self', w2)
      end
  end.

(** [__enter__]: [self.start(); return self] *)
Definition __enter__ (self : t) (w : World) : outcome unit * t * World :=
  start "main" self w.

(** [__exit__(self, *args)]: [self.stop()]; returns [None]. *)
Definition __exit__ (self : t) (w : World) : outcome unit * t * World :=
  stop "main" self w.

End Timer.

(** ** The [with] statement over a Timer

    [with timer: body].  [__enter__] runs first; if it raises, the block is
    not entered and [__exit__] is not called.  Otherwise [__exit__] runs
    when the block is left, normally or by a failure; it returns [None], so
    a failure of the block keeps propagating, unless [__exit__] itself
    raises. *)
Definition with_ {A : Type}
  (body : Timer.t -> World -> outcome A * Timer.t * World)
  (self : Timer.t) (w : World) : outcome A * Timer.t * World :=
  match Timer.__enter__ self w with
  | (Raise e, t1, w1) => (Raise e, t1, w1)
  | (Return _, t1, w1) =>
      let '(o, t2, w2) := body t1 w1 in
      match Timer.__exit__ t2 w2 with
      | (Raise e, t3, w3) => (Raise e, t3, w3)
      | (Return _, t3, w3) => (o, t3, w3)
      end
  end.

(** ** Objects, functions and classes *)

Inductive value : Type :=
| VNone
| VInt (z : Z)
| VStr (s : string)
| VTimer (t : Timer.t).

(** An instance: the attribute [_timer] (absent until an initializer sets
    it) and the other instance attributes. *)
Record instance : Type := mkInstance
  { _timer : option Timer.t; __dict__ : list (string * value) }.

Definition set_timer (t : Timer.t) (self : instance) : instance :=
  mkInstance (Some t) (__dict__ self).

(** Parameters of a function after [self]: a fixed number of positional
    parameters, or [*args, **kwargs]. *)
Inductive params : Type := Params (n : nat) | VarArgs.

(** A function object ([types.FunctionType]) taking [self] first. *)
Record function : Type := mkFunction
  { __name__ : string;
    __params__ : params;
    __code__ : list value -> instance -> World -> outcome value * instance * World }.

Definition accepts (p : params) (args : list value) : bool :=
  match p with
  | Params n => Nat.eqb (List.length args) n
  | VarArgs => true
  end.

(** [f(self, *args)]: the interpreter raises [TypeError] when the
    arguments do not fit the parameters (the wording of its message is
    the interpreter's and is not relied on). *)
Definition call (f : function) (args : list value) (self : instance) (w : World)
  : outcome value * instance * World :=
  if accepts (__params__ f) args then __code__ f args self w
  else (Raise (TypeError (__name__ f ++ "() got a wrong number of positional arguments")),
        self, w).

(** What a class body can bind a name to. *)
Inductive attr : Type :=
| AFunction (f : function)
| AData (v : value)
| AProperty (fget : function).

(** [isinstance(v, (types.FunctionType, types.MethodType))] *)
Definition is_function (a : attr) : bool :=
  match a with AFunction _ => true | _ => false end.

(** [repr(type(v))] *)
Definition type_repr (a : attr) : string :=
  match a with
  | AFunction _ => "<class 'function'>"
  | AData VNone => "<class 'NoneType'>"
  | AData (VInt _) => "<class 'int'>"
  | AData (VStr _) => "<class 'str'>"
  | AData (VTimer _) => "<class 'xenonpy.utils.useful_cls.Timer'>"
  | AProperty _ => "<class 'property'>"
  end.

(** Calling whatever a name is bound to, with [self] first. *)
Definition call_attr (a : attr) (args : list value) (self : instance) (w : World)
  : outcome value * instance * World :=
  match a with
  | AFunction f => call f args self w
  | _ => (Raise (TypeError (type_repr a ++ " object is not callable")), self, w)
  end.

#[warnings="-register-all"]
Inductive class : Type :=
| Class (name : string) (bases : list class) (attrs : list (string * attr)).

Definition class_dict (c : class) : list (string * attr) :=
  match c with Class _ _ attrs => attrs end.

(** Attribute lookup on a class: its own dictionary, then the bases from
    left to right (the method resolution order of a hierarchy without
    diamonds). *)
Fixpoint getattr_class (name : string) (c : class) : option attr :=
  match c with
  | Class _ bases attrs =>
      match lookup name attrs with
      | Some a => Some a
      | None =>
          (fix through (bs : list class) : option attr :=
             match bs with
             | [] => None
             | b :: bs' =>
                 match getattr_class name b with
                 | Some a => Some a
                 | None => through bs'
                 end
             end) bases
      end
  end.

(** The allocation step of [cls( *args)]: the [__new__] found on the class
    is called with the class and the arguments.  A [__new__] defined in a
    class body is modelled by what it does to the blank object that
    [super().__new__(cls)] gives it: the function is run on the blank
    instance (its parameters after [cls] are its [__params__]) and the
    instance it leaves is the object it returns; a [__new__] that returns
    something else than a new instance of the class is not modelled.
    Without one, [object.__new__] allocates the blank instance; it rejects
    arguments when the class has no [__init__] either. *)
Definition allocate (c : class) (args : list value) (w : World)
  : outcome instance * World :=
  match getattr_class "__new__" c with
  | Some new =>
      match call_attr new args (mkInstance None []) w with
      | (Raise e, _, w') => (Raise e, w')
      | (Return _, obj, w') => (Return obj, w')
      end
  | None =>
      match getattr_class "__init__" c, args with
      | None, _ :: _ => (Raise (TypeError "object() takes no arguments"), w)
      | _, _ => (Return (mkInstance None []), w)
      end
  end.

(** [cls( *args)], that is [type.__call__]: the object is allocated, then
    the [__init__] found on the class initialises it with the same
    arguments; an [__init__] that returns something else than [None] is a
    [TypeError].  Without an [__init__], [object.__init__] has nothing to
    do (the arguments were checked by the allocation, and are ignored when
    the class has a [__new__] of its own). *)
Definition construct (c : class) (args : list value) (w : World)
  : outcome instance * World :=
  match allocate c args w with
  | (Raise e, w1) => (Raise e, w1)
  | (Return obj, w1) =>
      match getattr_class "__init__" c with
      | None => (Return obj, w1)
      | Some init =>
          match call_attr init args obj w1 with
          | (Raise e, _, w') => (Raise e, w')
          | (Return VNone, self, w') => (Return self, w')
          | (Return _, _, w') =>
              (Raise (TypeError "__init__() should return None"), w')
          end
      end
  end.

(** ** class TimedMetaClass *)

Module TimedMetaClass.

Definition no_timer : exn :=
  AttributeError "object has no attribute '_timer'".

(** The wrapper [fn_] that [_timed] builds around [fn]:
    [self._timer.start(fn.__name__)];
    [try: rt = fn(self, *args, **kwargs)]
    [finally: self._timer.stop(fn.__name__)];
    [return rt].
    [@wraps(fn)] gives it the name of [fn]; its own parameters are
    [(self, *args, **kwargs)]. *)
Definition fn_ (fn : function) : function :=
  mkFunction (__name__ fn) VarArgs
    (fun args self w =>
       match _timer self with
       | None => (Raise no_timer, self, w)
       | Some tm =>
           match Timer.start (__name__ fn) tm w with
           | (Raise e, tm1, w1) => (Raise e, set_timer tm1 self, w1)
           | (Return _, tm1, w1) =>
               let '(rt, self2, w2) := call fn args (set_timer tm1 self) w1 in
               (* finally *)
               match _timer self2 with
               | None => (Raise no_timer, self2, w2)
               | Some tm2 =>
                   match Timer.stop (__name__ fn) tm2 w2 with
                   | (Raise e, tm3, w3) => (Raise e, set_timer tm3 self2, w3)
                   | (Return _, tm3, w3) => (rt, set_timer tm3 self2, w3)
                   end
               end
           end
       end).

(** [_timed(fn)] *)
Definition _timed (fn : attr) : outcome attr :=
  match fn with
  | AFunction f => Return (AFunction (fn_ f))
  | _ => Raise (TypeError ("Need <FunctionType> or <MethodType> but got " ++ type_repr fn))
  end.

(** [injected_init] when the class body defines [__init__]:
    [setattr(self, '_timer', Timer())]; [real_init(self, *args, **kwargs)].
    [@wraps(real_init)] copies the name when [real_init] has one. *)
Definition injected_init_real (real_init : attr) : function :=
  mkFunction
    (match real_init with AFunction f => __name__ f | _ => "injected_init" end)
    VarArgs
    (fun args self w =>
       match call_attr real_init args (set_timer (Timer.__init__ perf_counter) self) w with
       | (Raise e, self', w') => (Raise e, self', w')
       | (Return _, self', w') => (Return VNone, self', w')
       end).

(** [injected_init] when it does not: [def injected_init(self):]
    [setattr(self, '_timer', Timer())]. *)
Definition injected_init_none : function :=
  mkFunction "injected_init" (Params 0)
    (fun _ self w => (Return VNone, set_timer (Timer.__init__ perf_counter) self, w)).

(** [name_.startswith("__")] *)
Definition startswith__ (name_ : string) : bool := String.prefix "__" name_.

(** The loop [for name_, value_ in attrs.items(): ...].  An assignment
    [attrs[name_] = ...] to the key being visited replaces its value in
    place, so the loop sees every entry once, with the value it had. *)
Fixpoint wrap_loop (items attrs : list (string * attr))
  : outcome (list (string * attr)) :=
  match items with
  | [] => Return attrs
  | (name_, value_) :: rest =>
      if negb (startswith__ name_) && is_function value_ then
        match _timed value_ with
        | Return wrapped => wrap_loop rest (setitem name_ wrapped attrs)
        | Raise e => Raise e
        end
      else wrap_loop rest attrs
  end.

(** [lambda self: self._timer] *)
Definition timer_getter : function :=
  mkFunction "<lambda>" (Params 0)
    (fun _ self w =>
       match _timer self with
       | Some tm => (Return (VTimer tm), self, w)
       | None => (Raise no_timer, self, w)
       end).

(** [__new__(mcs, name, bases, attrs)] *)
Definition __new__ (name : string) (bases : list class) (attrs : list (string * attr))
  : outcome class :=
  let injected_init :=
    if contains "__init__" attrs then
      match lookup "__init__" attrs with
      | Some real_init => injected_init_real real_init
      | None => injected_init_none      (* unreachable *)
      end
    else injected_init_none in
  let attrs1 := setitem "__init__" (AFunction injected_init) attrs in
  match wrap_loop attrs1 attrs1 with
  | Raise e => Raise e
  | Return attrs2 =>
      (* cls = type.__new__(mcs, name, bases, attrs); cls.timer = property(...) *)
      Return (Class name bases (setitem "timer" (AProperty timer_getter) attrs2))
  end.

End TimedMetaClass.

(** ** Sequences of calls on a Timer *)

Inductive op : Type := Start (name : string) | Stop (name : string).

Definition step (o : op) (self : Timer.t) (w : World) : outcome unit * Timer.t * World :=
  match o with
  | Start n => Timer.start n self w
  | Stop n => Timer.stop n self w
  end.

(** The calls are made one after the other; a caller that catches a
    failure goes on with the next call. *)
Fixpoint run (ops : list op) (self : Timer.t) (w : World)
  : list (outcome unit) * Timer.t * World :=
  match ops with
  | [] => ([], self, w)
  | o :: ops' =>
      let '(r, self1, w1) := step o self w in
      let '(rs, self2, w2) := run ops' self1 w1 in
      (r :: rs, self2, w2)
  end.

(** [n] times [start(name); stop(name)]. *)
Fixpoint paired (name : string) (n : nat) : list op :=
  match n with
  | O => []
  | S n' => Start name :: Stop name :: paired name n'
  end.

(** No call in [ops] is [start(name)]. *)
Definition never_started (name : string) (ops : list op) : bool :=
  forallb (fun o => match o with Start n => negb (String.eqb n name) | Stop _ => true end) ops.

(** A fake clock that returns the given ticks one after the other (and
    [0] once they are used up). *)
Definition clock_of_ticks (ticks : list Z) : clock :=
  mkClock (fun i => nth i ticks 0) 0.

(** The slot [self._timers[name]] hands out: the registered one, or a
    fresh one when the name is not registered yet. *)
Definition slot (name : string) (self : Timer.t) : _Timer.t :=
  fst (Timer.getitem name (Timer._timers self)).

(** The slots whose [elapsed] can be read: the read converts the sum of
    the durations to a float unless [start] is true. *)
Definition readable (s : _Timer.t) : bool :=
  _Timer.truthy (_Timer.start s) || is_Return (int_to_float (sum (_Timer.times s))).

(** A slot is Running when its [start] is set, Idle otherwise. *)
Definition running (s : _Timer.t) : bool :=
  match _Timer.start s with Some _ => true | None => false end.

(** The durations that [n] pairs of calls record on clock [c]: the pair
    number [i] reads the clock at calls [2i] and [2i+1] from now. *)
Definition increments (c : clock) (n : nat) : list Z :=
  map (fun i => readings c (calls c + 2 * i + 1) - readings c (calls c + 2 * i))
      (seq 0 n).

(** Not registered, or registered as a fresh slot. *)
Definition untouched (name : string) (T : Timer.t) : Prop :=
  lookup name (Timer._timers T) = None
  \/ lookup name (Timer._timers T) = Some _Timer.__init__.

(** What the loop does to one entry of the class body. *)
Definition wrapped_entry (n : string) (v : attr) : attr :=
  match v with
  | AFunction f =>
      if TimedMetaClass.startswith__ n then v
      else AFunction (TimedMetaClass.fn_ f)
  | _ => v
  end.

(** The initializer [__new__] puts under [__init__]. *)
Definition injected_init (attrs : list (string * attr)) : function :=
  match lookup "__init__"%string attrs with
  | Some real_init => TimedMetaClass.injected_init_real real_init
  | None => TimedMetaClass.injected_init_none
  end.

(** ** class Switch *)

Module Switch.

Record t (V : Type) : Type := mk { value : V; fall : bool }.
Arguments mk {V} value fall.
Arguments value {V} _.
Arguments fall {V} _.

Section WithEq.
Context {V : Type}.
(** Python's [==] on the values compared by [self.value in args]. *)
Context (eqb : V -> V -> bool).

(** [__init__(self, value)]: [self.value = value; self.fall = False] *)
Definition __init__ (value : V) : t V := mk value false.

(** [match(self, *args)]:
    [if self.fall or not args: return True];
    [elif self.value in args: self.fall = True; return True];
    [else: return False]. *)
Definition match_ (args : list V) (self : t V) : bool * t V :=
  if fall self || (match args with [] => true | _ :: _ => false end)
  then (true, self)
  else if existsb (eqb (value self)) args
       then (true, mk (value self) true)
       else (false, self).

(** [__iter__]: the generator yields the bound method [self.match] once
    and stops. *)
Definition __iter__ (self : t V) : list (list V -> t V -> bool * t V) :=
  [match_].

(** The tests [case(a, b, ...)] of the suites of one [for case in
    Switch(v)] body, evaluated one after the other on the same object. *)
Fixpoint cases (cs : list (list V)) (self : t V) : list bool * t V :=
  match cs with
  | [] => ([], self)
  | args :: cs' =>
      let (r, self1) := match_ args self in
      let (rs, self2) := cases cs' self1 in
      (r :: rs, self2)
  end.
End WithEq.

End Switch.

(** ** class Singleton

    [_instances] is one dictionary, an attribute of the metaclass, keyed by
    the classes themselves.  A class is identified by [cls_id] (its
    identity) and the instances live in a heap, so that two calls can be
    seen to return the same object.  Keyword arguments are not modelled. *)

Module Singleton.

(** What can be passed for the parameter [args]: a tuple of values, or a
    single value. *)
Inductive pyobj : Type :=
| Tuple (items : list value)
| Obj (v : value).

Record class_ref : Type := mkRef { cls_id : nat; cls_def : class }.

Record state : Type := mkState
  { heap : list instance; _instances : list (nat * nat) }.

Fixpoint find (k : nat) (d : list (nat * nat)) : option nat :=
  match d with
  | [] => None
  | (k', v) :: d' => if Nat.eqb k k' then Some v else find k d'
  end.

Fixpoint store (k v : nat) (d : list (nat * nat)) : list (nat * nat) :=
  match d with
  | [] => [(k, v)]
  | (k', v') :: d' =>
      if Nat.eqb k k' then (k', v) :: d' else (k', v') :: store k v d'
  end.

(** [*args]: a tuple gives its items, a string its characters; the other
    values are not iterable. *)
Definition unpack (args : pyobj) : outcome (list value) :=
  match args with
  | Tuple items => Return items
  | Obj (VStr s) =>
      Return (map (fun c => VStr (String c EmptyString)) (list_ascii_of_string s))
  | Obj v =>
      Raise (TypeError ("argument after * must be an iterable, not "
                          ++ type_repr (AData v)))
  end.

(** [__call__(self, args, **kwargs)]: exactly one positional argument
    besides the class.
    [if self not in self._instances:]
    [    self._instances[self] = super().__call__( *args, **kwargs)];
    [return self._instances[self]]. *)
Definition __call__ (self : class_ref) (positional : list pyobj)
  (st : state) (w : World) : outcome nat * state * World :=
  match positional with
  | [args] =>
      match find (cls_id self) (_instances st) with
      | Some obj => (Return obj, st, w)
      | None =>
          match unpack args with
          | Raise e => (Raise e, st, w)
          | Return items =>
              match construct (cls_def self) items w with
              | (Raise e, w') => (Raise e, st, w')
              | (Return inst, w') =>
                  let obj := List.length (heap st) in
                  let st' := mkState (heap st ++ [inst])%list
                                     (store (cls_id self) obj (_instances st)) in
                  match find (cls_id self) (_instances st') with
                  | Some o => (Return o, st', w')
                  | None => (Raise (RuntimeError "KeyError"), st', w')  (* unreachable *)
                  end
              end
          end
      end
  | _ =>
      (Raise (TypeError "__call__() got a wrong number of positional arguments"),
       st, w)
  end.

End Singleton.

(** ** More on sequences of calls *)

Definition op_name (o : op) : string :=
  match o with Start n => n | Stop n => n end.

(** Every call in [ops] is on a name other than [name]. *)
Definition other_names (name : string) (ops : list op) : bool :=
  forallb (fun o => negb (String.eqb (op_name o) name)) ops.

(** The clock a Timer with clock [f] does not read. *)
Definition other_clock (f : time_func) : time_func :=
  match f with perf_counter => injected | injected => perf_counter end.

(** A clock that never goes back. *)
Definition monotonic (c : clock) : Prop :=
  forall i j : nat, (i <= j)%nat -> readings c i <= readings c j.

(** Every recorded duration of every slot is non-negative, and every
    running slot was started at one of the first [k] readings [r]. *)
Definition well_timed (r : nat -> Z) (k : nat) (T : Timer.t) : Prop :=
  forall n s,
    lookup n (Timer._timers T) = Some s ->
    Forall (fun d => 0 <= d) (_Timer.times s)
    /\ forall t, _Timer.start s = Some t -> exists i, (i < k)%nat /\ t = r i.

(** [line] occurs in [text]. *)
Definition occurs_in (line text : string) : Prop :=
  exists before after, text = before ++ line ++ after.

(** [a] occurs before [b] in [l]. *)
Definition before {A : Type} (l : list A) (a b : A) : Prop :=
  exists l1 l2 l3, l = (l1 ++ a :: l2 ++ b :: l3)%list.

(** The order of the report over the pairs [(name, elapsed)]: the greater
    value first, and for one and the same value the pair that comes first
    in [pairs]. *)
Definition report_precedes (pairs : list (string * Z)) (a b : string * Z) : Prop :=
  snd b < snd a \/ (snd a = snd b /\ before pairs a b).

(** ** Functions and class bodies of the examples *)

(** An operation that fails, and one that returns, for the examples. *)
Definition compute_fails : function :=
  mkFunction "compute" (Params 0) (fun _ self w => (Raise (DomainError 7), self, w)).

Definition compute_42 : function :=
  mkFunction "compute" (Params 0) (fun _ self w => (Return (VInt 42), self, w)).

(** An operation that stops its own slot before it returns. *)
Definition compute_stops_itself : function :=
  mkFunction "compute" (Params 0)
    (fun _ self w =>
       match _timer self with
       | Some tm =>
           let '(_, tm', w') := Timer.stop "compute" tm w in
           (Return (VInt 42), set_timer tm' self, w')
       | None => (Raise TimedMetaClass.no_timer, self, w)
       end).

(** A function whose name has one leading underscore. *)
Definition _helper : function :=
  mkFunction "_helper" (Params 0) (fun _ self w => (Return (VInt 1), self, w)).

(** [def __init__(self, x): self.x = x] *)
Definition init_x : function :=
  mkFunction "__init__" (Params 1)
    (fun args self w =>
       (Return VNone,
        mkInstance (_timer self) (setitem "x" (nth 0 args VNone) (__dict__ self)),
        w)).

(** * Properties *)

Local Open Scope list_scope.

(** ** Dictionaries *)

Section DictFacts.
Context {V : Type}.
Implicit Types (d : list (string * V)) (k : string) (v : V).

Lemma lookup_setitem_eq k v d : lookup k (setitem k v d) = Some v.
Proof.
  induction d as [|[k' v'] d IH]; simpl.
  - now rewrite String.eqb_refl.
  - destruct (String.eqb k k') eqn:E; simpl; rewrite E; auto.
Qed.

Lemma lookup_setitem_ne k k' v d :
  k <> k' -> lookup k' (setitem k v d) = lookup k' d.
Proof.
  intros Hne. induction d as [|[k0 v0] d IH]; simpl.
  - destruct (String.eqb k' k) eqn:E; auto.
    apply String.eqb_eq in E. congruence.
  - destruct (String.eqb k k0) eqn:E; simpl.
    + apply String.eqb_eq in E. subst k0.
      destruct (String.eqb k' k) eqn:E'; auto.
      apply String.eqb_eq in E'. congruence.
    + now rewrite IH.
Qed.

Lemma lookup_app_fresh k v d :
  lookup k d = None -> lookup k (d ++ [(k, v)]) = Some v.
Proof.
  induction d as [|[k' v'] d IH]; simpl; intros H.
  - now rewrite String.eqb_refl.
  - destruct (String.eqb k k'); [discriminate | auto].
Qed.

Lemma lookup_app_other k k' v d :
  k <> k' -> lookup k' (d ++ [(k, v)]) = lookup k' d.
Proof.
  intros Hne. induction d as [|[k0 v0] d IH]; simpl.
  - destruct (String.eqb k' k) eqn:E; auto.
    apply String.eqb_eq in E. congruence.
  - now rewrite IH.
Qed.

Lemma setitem_app_fresh k v v0 d :
  lookup k d = None -> setitem k v (d ++ [(k, v0)]) = setitem k v d.
Proof.
  induction d as [|[k' v'] d IH]; simpl; intros H.
  - now rewrite String.eqb_refl.
  - destruct (String.eqb k k'); [discriminate | now rewrite IH].
Qed.

Lemma setitem_setitem k v v' d :
  setitem k v (setitem k v' d) = setitem k v d.
Proof.
  induction d as [|[k0 v0] d IH]; simpl.
  - now rewrite String.eqb_refl.
  - destruct (String.eqb k k0) eqn:E; simpl; rewrite E; [reflexivity | now rewrite IH].
Qed.

Lemma lookup_In k v d : lookup k d = Some v -> In (k, v) d.
Proof.
  induction d as [|[k' v'] d IH]; simpl; [discriminate|].
  destruct (String.eqb k k') eqn:E; intros H.
  - apply String.eqb_eq in E. left. congruence.
  - right. auto.
Qed.

Lemma lookup_None_notin k d : lookup k d = None -> ~ In k (keys d).
Proof.
  induction d as [|[k' v'] d IH]; simpl; intros H; [tauto|].
  destruct (String.eqb k k') eqn:E; [discriminate|].
  apply String.eqb_neq in E. intros [H1 | H1]; [congruence | now apply IH].
Qed.

Lemma notin_lookup_None k d : ~ In k (keys d) -> lookup k d = None.
Proof.
  induction d as [|[k' v'] d IH]; simpl; intros H; [reflexivity|].
  destruct (String.eqb k k') eqn:E.
  - apply String.eqb_eq in E. subst. tauto.
  - apply IH. tauto.
Qed.

Lemma keys_setitem_present k v d :
  lookup k d <> None -> keys (setitem k v d) = keys d.
Proof.
  induction d as [|[k' v'] d IH]; simpl; intros H; [congruence|].
  destruct (String.eqb k k') eqn:E; simpl; [reflexivity|].
  f_equal. now apply IH.
Qed.

Lemma setitem_absent k v d :
  lookup k d = None -> setitem k v d = d ++ [(k, v)].
Proof.
  induction d as [|[k' v'] d IH]; simpl; intros H; [reflexivity|].
  destruct (String.eqb k k'); [discriminate | now rewrite IH].
Qed.
End DictFacts.

Lemma sum_acc (xs : list Z) (a : Z) : fold_left Z.add xs a = a + sum xs.
Proof.
  unfold sum. revert a. induction xs as [|x xs IH]; intros a; simpl.
  - lia.
  - rewrite IH, (IH x). lia.
Qed.

Lemma sum_app (xs ys : list Z) : sum (xs ++ ys) = sum xs + sum ys.
Proof.
  unfold sum at 1. rewrite fold_left_app, sum_acc. reflexivity.
Qed.

Lemma sum_cons (x : Z) (xs : list Z) : sum (x :: xs) = x + sum xs.
Proof. unfold sum at 1. simpl. apply sum_acc. Qed.

(** ** [start] and [stop] on one slot *)

Lemma slot_lookup name T s :
  lookup name (Timer._timers T) = Some s -> slot name T = s.
Proof. unfold slot, Timer.getitem. now intros ->. Qed.

Lemma slot_absent name T :
  lookup name (Timer._timers T) = None -> slot name T = _Timer.__init__.
Proof. unfold slot, Timer.getitem. now intros ->. Qed.

Lemma start_idle name T w :
  _Timer.start (slot name T) = None ->
  Timer.start name T w =
    (Return tt,
     Timer.mk (Timer._func T)
       (setitem name
          (_Timer.mk (Some (fst (call_time_func (Timer._func T) w)))
                     (_Timer.times (slot name T)))
          (Timer._timers T)),
     snd (call_time_func (Timer._func T) w)).
Proof.
  unfold slot, Timer.start, Timer.getitem.
  destruct (lookup name (Timer._timers T)) as [s|] eqn:L; simpl; intros H.
  - rewrite H. destruct (call_time_func _ w) as [now w']. rewrite L. reflexivity.
  - destruct (call_time_func _ w) as [now w'].
    rewrite (lookup_app_fresh _ _ _ L). simpl.
    now rewrite setitem_app_fresh.
Qed.

Lemma start_running name T w t0 :
  _Timer.start (slot name T) = Some t0 ->
  Timer.start name T w = (Raise (Timer.already_started name), T, w).
Proof.
  unfold slot, Timer.start, Timer.getitem.
  destruct (lookup name (Timer._timers T)) as [s|] eqn:L; simpl; intros H.
  - rewrite H. now destruct T.
  - discriminate.
Qed.

Lemma stop_running name T w t0 :
  _Timer.start (slot name T) = Some t0 ->
  Timer.stop name T w =
    (Return tt,
     Timer.mk (Timer._func T)
       (setitem name
          (_Timer.mk None
             (_Timer.times (slot name T)
                ++ [fst (call_time_func (Timer._func T) w) - t0])%list)
          (Timer._timers T)),
     snd (call_time_func (Timer._func T) w)).
Proof.
  unfold slot, Timer.stop, Timer.getitem.
  destruct (lookup name (Timer._timers T)) as [s|] eqn:L; simpl; intros H;
    [|discriminate].
  rewrite H. destruct (call_time_func _ w) as [now w'].
  rewrite !L. simpl. rewrite ?H, lookup_setitem_eq. simpl.
  now rewrite setitem_setitem.
Qed.

Lemma stop_idle name T w :
  _Timer.start (slot name T) = None ->
  Timer.stop name T w =
    (Raise (Timer.not_started name),
     Timer.mk (Timer._func T) (snd (Timer.getitem name (Timer._timers T))),
     w).
Proof.
  unfold slot, Timer.stop.
  destruct (Timer.getitem name (Timer._timers T)) as [s d]. simpl.
  now intros ->.
Qed.

Lemma slot_setitem name s T f :
  slot name (Timer.mk f (setitem name s (Timer._timers T))) = s.
Proof. apply slot_lookup. simpl. apply lookup_setitem_eq. Qed.

Lemma slot_setitem_other name name' s T f :
  name <> name' ->
  slot name' (Timer.mk f (setitem name s (Timer._timers T))) = slot name' T.
Proof.
  intros Hne. unfold slot, Timer.getitem. simpl.
  rewrite (lookup_setitem_ne _ _ _ _ Hne).
  now destruct (lookup name' (Timer._timers T)).
Qed.

(** ** Clocks *)

Lemma call_time_func_reading f w :
  fst (call_time_func f w) = readings (clock_of f w) (calls (clock_of f w)).
Proof. now destruct f. Qed.

Lemma call_time_func_advances f w :
  clock_of f (snd (call_time_func f w))
  = mkClock (readings (clock_of f w)) (S (calls (clock_of f w))).
Proof. now destruct f. Qed.

Lemma increments_S c n :
  increments c (S n)
  = (readings c (calls c + 1) - readings c (calls c))
      :: increments (mkClock (readings c) (S (S (calls c)))) n.
Proof.
  unfold increments. cbn [seq map]. f_equal.
  - now rewrite Nat.mul_0_r, !Nat.add_0_r.
  - rewrite <- seq_shift, map_map. apply map_ext. intros i. cbn [calls readings].
    f_equal; f_equal; lia.
Qed.

Lemma running_false_start s : running s = false -> _Timer.start s = None.
Proof. unfold running. now destruct (_Timer.start s). Qed.

(** ** Conversion of an int to a float *)

(** The conversion is exact up to [2^53]. *)
Lemma int_to_float_exact z :
  Z.abs z <= 2 ^ 53 -> int_to_float z = Return z.
Proof.
  intros Hz. unfold int_to_float, nearest_double.
  assert (Hr : round_half_even (Z.abs z) (Z.log2 (Z.abs z) - 52) = Z.abs z).
  { destruct (Z.eq_dec (Z.abs z) (2 ^ 53)) as [-> | Hne]; [reflexivity|].
    unfold round_half_even.
    assert (Hlog : Z.log2 (Z.abs z) < 53).
    { destruct (Z.eq_dec (Z.abs z) 0) as [-> | Hnz]; [reflexivity|].
      apply Z.log2_lt_pow2; lia. }
    destruct (Z.leb_spec (Z.log2 (Z.abs z) - 52) 0); [reflexivity | lia]. }
  rewrite Hr.
  destruct (Z.leb_spec (2 ^ 1024) (Z.abs z)) as [Hbig|_].
  - assert (2 ^ 53 < 2 ^ 1024) by (apply Z.pow_lt_mono_r; lia). lia.
  - f_equal. destruct z; simpl; lia.
Qed.

Lemma nearest_double_nonneg a : 0 <= a -> 0 <= nearest_double a.
Proof.
  intros Ha. unfold nearest_double, round_half_even.
  destruct (Z.log2 a - 52 <=? 0); [exact Ha|].
  apply Z.shiftl_nonneg.
  assert (0 <= Z.shiftr a (Z.log2 a - 52)) by now apply Z.shiftr_nonneg.
  match goal with |- 0 <= (if ?b then _ else _) => destruct b end;
    [apply Z.add_nonneg_nonneg; [exact H | discriminate] | exact H].
Qed.

(** The conversion keeps the sign. *)
Lemma int_to_float_nonneg z v :
  0 <= z -> int_to_float z = Return v -> 0 <= v.
Proof.
  unfold int_to_float. intros Hz.
  destruct (2 ^ 1024 <=? nearest_double (Z.abs z)); [discriminate|].
  intros H. injection H as <-.
  apply Z.mul_nonneg_nonneg.
  - now apply Z.sgn_nonneg.
  - apply nearest_double_nonneg, Z.abs_nonneg.
Qed.

(** On these integers (zero, small ones, the first ties above [2^53], both
    signs, and the two sides of the overflow threshold) the conversion is
    the one the binary64 rounding of the standard library gives. *)
Lemma int_to_float_is_binary64_rounding :
  Forall (fun z => int_to_float z = int_to_float_ieee z)
    [0; 1; -1; 7; 2 ^ 52 + 1; 2 ^ 53 - 1; 2 ^ 53; 2 ^ 53 + 1; 2 ^ 53 + 2;
     2 ^ 53 + 3; - (2 ^ 53 + 1); - (2 ^ 53 + 3); 2 ^ 54 + 2; 2 ^ 54 + 6;
     2 ^ 60 + 129; 3 ^ 40; - (3 ^ 41); 10 ^ 30; 2 ^ 1024 - 2 ^ 971;
     2 ^ 1024 - 2 ^ 970 - 1; 2 ^ 1024 - 2 ^ 970; 2 ^ 1024; - (2 ^ 1024);
     10 ^ 400].
Proof. repeat (constructor; [vm_compute; reflexivity|]). constructor. Qed.

Lemma elapsed_idle s w :
  _Timer.start s = None ->
  _Timer.elapsed s w = (int_to_float (sum (_Timer.times s)), w).
Proof.
  unfold _Timer.elapsed. now intros ->.
Qed.

(** One [start(name); stop(name)] on a slot that is not running. *)
Lemma run_one_pair name T w :
  _Timer.start (slot name T) = None ->
  let c := clock_of (Timer._func T) w in
  exists T' w',
    Timer.stop name (snd (fst (Timer.start name T w))) (snd (Timer.start name T w))
      = (Return tt, T', w')
    /\ fst (fst (Timer.start name T w)) = Return tt
    /\ Timer._func T' = Timer._func T
    /\ slot name T'
       = _Timer.mk None
           (_Timer.times (slot name T)
              ++ [readings c (calls c + 1) - readings c (calls c)])
    /\ clock_of (Timer._func T) w' = mkClock (readings c) (S (S (calls c))).
Proof.
  intros Hidle c. rewrite (start_idle _ _ _ Hidle). simpl.
  set (T1 := Timer.mk _ _). set (w1 := snd (call_time_func _ w)).
  assert (H1 : _Timer.start (slot name T1) = Some (fst (call_time_func (Timer._func T) w))).
  { unfold T1. now rewrite slot_setitem. }
  rewrite (stop_running _ _ _ _ H1).
  eexists _, _. split; [reflexivity|].
  split; [reflexivity|]. split; [reflexivity|]. split.
  - unfold T1 at 2. simpl Timer._timers. rewrite setitem_setitem.
    rewrite slot_setitem. unfold T1 at 1. rewrite slot_setitem. simpl.
    unfold T1. simpl Timer._func.
    rewrite !call_time_func_reading. unfold w1.
    rewrite call_time_func_advances. simpl. fold c.
    now rewrite Nat.add_1_r.
  - unfold T1. simpl Timer._func. rewrite call_time_func_advances.
    unfold w1. rewrite call_time_func_advances. reflexivity.
Qed.

Lemma run_paired name n : forall T w,
  _Timer.start (slot name T) = None ->
  let '(rs, T', w') := run (paired name n) T w in
  Forall (fun r => r = Return tt) rs
  /\ slot name T'
     = _Timer.mk None
         (_Timer.times (slot name T) ++ increments (clock_of (Timer._func T) w) n).
Proof.
  induction n as [|n IH]; intros T w Hidle.
  - simpl. split; [constructor|].
    rewrite app_nil_r. destruct (slot name T) as [st ts]. simpl in *. now subst.
  - destruct (run_one_pair name T w Hidle) as (T2 & w2 & Hstop & Hstart & Hf & Hslot & Hclk).
    cbn [paired run step].
    destruct (Timer.start name T w) as [[r1 T1] w1]. simpl in Hstop, Hstart.
    rewrite Hstop.
    assert (Hidle2 : _Timer.start (slot name T2) = None) by now rewrite Hslot.
    specialize (IH T2 w2 Hidle2).
    destruct (run (paired name n) T2 w2) as [[rs T3] w3].
    destruct IH as [Hall Hfinal]. split.
    + subst r1. repeat constructor. exact Hall.
    + rewrite Hfinal, Hslot, Hf, Hclk, increments_S. simpl.
      now rewrite <- app_assoc.
Qed.

(** C2 as stated fails: with ticks 0 and 2^53 + 1, [start("a")] and
    [stop("a")] record the increment 2^53 + 1, and [elapsed] for "a" reads
    9007199254740992 (the float nearest to it), not the exact sum
    9007199254740993. *)
Lemma C2_counterexample_sum_rounded_to_float :
  let w0 := mkWorld (clock_of_ticks []) (clock_of_ticks [0; 2 ^ 53 + 1]) in
  let '(rs, T1, w1) := run [Start "a"; Stop "a"] (Timer.__init__ injected) w0 in
  rs = [Return tt; Return tt]
  /\ _Timer.times (slot "a" T1) = [9007199254740993]
  /\ sum (increments (clock_of injected w0) 1) = 9007199254740993
  /\ fst (_Timer.elapsed (slot "a" T1) w1) = Return 9007199254740992
  /\ fst (_Timer.elapsed (slot "a" T1) w1)
     <> Return (sum (increments (clock_of injected w0) 1)).
Proof.
  vm_compute. repeat split; try reflexivity. discriminate.
Qed.

(** C2, amended.  Paired [start(name)]/[stop(name)] calls on a Timer whose
    slot for [name] is not running: every call returns and the slot
    records exactly the increments of the clock [_func] (reading at
    [stop] minus reading at [start], pair by pair) after the durations it
    had; afterwards [elapsed] for that name is the conversion to a float of
    the exact sum of the recorded durations, that is the double nearest to
    it, or [OverflowError] beyond the doubles; it is the exact sum itself
    whenever that sum is at most [2^53] in magnitude.  Scenario: with ticks
    0, 5, 10, 12 the first pair leaves [elapsed] at 5 and the second at 7. *)
Theorem C2_paired_elapsed_float_of_exact_sum :
  (forall name n T w,
      running (slot name T) = false ->
      let '(rs, T', w') := run (paired name n) T w in
      let total := sum (_Timer.times (slot name T))
                   + sum (increments (clock_of (Timer._func T) w) n) in
      Forall (fun r => r = Return tt) rs
      /\ slot name T'
         = _Timer.mk None
             (_Timer.times (slot name T) ++ increments (clock_of (Timer._func T) w) n)
      /\ (forall w'', _Timer.elapsed (slot name T') w'' = (int_to_float total, w''))
      /\ (Z.abs total <= 2 ^ 53 ->
          forall w'', _Timer.elapsed (slot name T') w'' = (Return total, w'')))
  /\ (let w0 := mkWorld (clock_of_ticks []) (clock_of_ticks [0; 5; 10; 12]) in
      let '(r1, T1, w1) := run [Start "a"; Stop "a"] (Timer.__init__ injected) w0 in
      let '(r2, T2, w2) := run [Start "a"; Stop "a"] T1 w1 in
      r1 = [Return tt; Return tt]
      /\ fst (_Timer.elapsed (slot "a" T1) w1) = Return 5
      /\ r2 = [Return tt; Return tt]
      /\ fst (_Timer.elapsed (slot "a" T2) w2) = Return 7).
Proof.
  split.
  - intros name n T w Hrun. apply running_false_start in Hrun.
    pose proof (run_paired name n T w Hrun) as H.
    destruct (run (paired name n) T w) as [[rs T'] w'].
    destruct H as [Hall Hslot]. cbv zeta. split; [exact Hall|].
    split; [exact Hslot|].
    assert (He : forall w'',
               _Timer.elapsed (slot name T') w''
               = (int_to_float (sum (_Timer.times (slot name T))
                                + sum (increments (clock_of (Timer._func T) w) n)),
                  w'')).
    { intros w''. rewrite Hslot, elapsed_idle by reflexivity. simpl.
      now rewrite sum_app. }
    split; [exact He|].
    intros Hsmall w''. now rewrite He, int_to_float_exact.
  - vm_compute. repeat split; reflexivity.
Qed.

Lemma C2_paired_elapsed_float_of_exact_sum_witness :
  let w0 := mkWorld (clock_of_ticks []) (clock_of_ticks [0; 5; 10; 12]) in
  running (slot "a" (Timer.__init__ injected)) = false
  /\ Z.abs (0 + sum (increments (clock_of injected w0) 2)) <= 2 ^ 53
  /\ let '(rs, T', w') := run (paired "a" 2) (Timer.__init__ injected) w0 in
     Forall (fun r => r = Return tt) rs
     /\ forall w'', _Timer.elapsed (slot "a" T') w'' = (Return 7, w'').
Proof.
  intros w0. split; [reflexivity|].
  assert (Hsmall : Z.abs (0 + sum (increments (clock_of injected w0) 2)) <= 2 ^ 53).
  { vm_compute. discriminate. }
  split; [exact Hsmall|].
  pose proof (proj1 C2_paired_elapsed_float_of_exact_sum "a"%string 2%nat
                (Timer.__init__ injected) w0 eq_refl) as H.
  destruct (run (paired "a" 2) (Timer.__init__ injected) w0) as [[rs T'] w'].
  destruct H as (Hall & _ & _ & Hexact).
  split; [exact Hall|]. exact (Hexact Hsmall).
Defined.

(** ** Reading [elapsed] *)

(** A running slot whose [start] is not zero: the live delta is taken from
    [time.perf_counter], whatever clock the Timer was given. *)
Lemma elapsed_running_nonzero s w t0 :
  _Timer.start s = Some t0 -> t0 <> 0 ->
  _Timer.elapsed s w
  = (Return (sum (_Timer.times s)
             + (readings (time_perf_counter w) (calls (time_perf_counter w)) - t0)),
     mkWorld (snd (tick (time_perf_counter w))) (fake_clock w)).
Proof.
  unfold _Timer.elapsed. intros -> Hnz. simpl.
  destruct (Z.eqb_spec t0 0); [contradiction | reflexivity].
Qed.

Lemma elapsed_zero_start s w :
  _Timer.start s = Some 0 ->
  _Timer.elapsed s w = (int_to_float (sum (_Timer.times s)), w).
Proof.
  unfold _Timer.elapsed. now intros ->.
Qed.

(** Reading [Timer.elapsed] leaves the registry as it was. *)
Lemma Timer_elapsed_keeps_timer T w :
  snd (fst (Timer.elapsed T w)) = T.
Proof.
  unfold Timer.elapsed, contains, Timer.getitem.
  destruct (lookup "main"%string (Timer._timers T)) as [s|].
  - destruct (_Timer.elapsed s w). simpl. now destruct T.
  - now destruct (Timer.sum_elapsed _ 0 w).
Qed.

(** The accumulating sum over the slots is the sum of the single reads,
    and it raises where the first of them raises. *)
Lemma sum_elapsed_items d : forall acc w,
  Timer.sum_elapsed (values d) acc w
  = match Timer.items_elapsed d w with
    | (Return pairs, w') => (Return (acc + sum (map snd pairs)), w')
    | (Raise e, w') => (Raise e, w')
    end.
Proof.
  induction d as [|[k v] d IH]; intros acc w; simpl.
  - f_equal. unfold sum. simpl. f_equal. lia.
  - destruct (_Timer.elapsed v w) as [[e|e] w1]; [|reflexivity]. rewrite IH.
    destruct (Timer.items_elapsed d w1) as [[rest|e'] w2]; [|reflexivity]. simpl.
    rewrite sum_cons. f_equal. f_equal. lia.
Qed.

(** C10.  A slot that is Running with [start] exactly 0: reading
    [elapsed] returns the sum of the completed durations only (converted
    to a float, so the sum itself up to [2^53]), without reading any
    clock, exactly as for an Idle slot with these durations; a [stop] on
    that slot still returns, records the duration (the clock reading
    minus 0) and leaves the slot Idle. *)
Theorem C10_start_zero_reads_as_idle :
  forall name T w ts,
    slot name T = _Timer.mk (Some 0) ts ->
    running (slot name T) = true
    /\ _Timer.elapsed (slot name T) w = (int_to_float (sum ts), w)
    /\ (Z.abs (sum ts) <= 2 ^ 53 ->
        _Timer.elapsed (slot name T) w = (Return (sum ts), w))
    /\ _Timer.elapsed (slot name T) w = _Timer.elapsed (_Timer.mk None ts) w
    /\ exists T' w',
         Timer.stop name T w = (Return tt, T', w')
         /\ slot name T'
            = _Timer.mk None
                (ts ++ [readings (clock_of (Timer._func T) w)
                                 (calls (clock_of (Timer._func T) w)) - 0]).
Proof.
  intros name T w ts Hs. rewrite Hs. split; [reflexivity|].
  split; [now apply elapsed_zero_start|].
  split; [intros Hsmall; rewrite elapsed_zero_start by reflexivity;
          simpl; now rewrite int_to_float_exact|].
  split; [now rewrite elapsed_zero_start, elapsed_idle|].
  assert (H0 : _Timer.start (slot name T) = Some 0) by now rewrite Hs.
  rewrite (stop_running _ _ _ _ H0). eexists _, _. split; [reflexivity|].
  now rewrite slot_setitem, Hs, call_time_func_reading.
Qed.

Lemma C10_start_zero_reads_as_idle_witness :
  let w0 := mkWorld (clock_of_ticks [100]) (clock_of_ticks [0; 5]) in
  let T := snd (fst (Timer.start "a" (Timer.__init__ injected) w0)) in
  let w := snd (Timer.start "a" (Timer.__init__ injected) w0) in
  slot "a" T = _Timer.mk (Some 0) []
  /\ _Timer.elapsed (slot "a" T) w = (Return 0, w)
  /\ exists T' w',
       Timer.stop "a" T w = (Return tt, T', w')
       /\ slot "a" T' = _Timer.mk None [5 - 0].
Proof.
  intros w0 T w.
  assert (Hs : slot "a" T = _Timer.mk (Some 0) []) by reflexivity.
  split; [exact Hs|].
  destruct (C10_start_zero_reads_as_idle "a"%string T w [] Hs)
    as (_ & _ & He & _ & Hstop).
  split; [|exact Hstop].
  apply He. vm_compute. discriminate.
Defined.

(** C3.  A Timer built with a fake clock, slot "a" started when the fake
    clock reads 10, nothing completed yet.  When [elapsed] is read the fake
    clock would return 15 and [time.perf_counter] returns 1000: the read
    returns 1000 - 10 = 990, not 0 + (15 - 10) = 5, and it consumes a
    reading of [time.perf_counter], not of the fake clock.  The slot and
    the registry are left unchanged by the read. *)
Theorem C3_live_delta_reads_perf_counter :
  let w0 := mkWorld (clock_of_ticks [1000; 1001]) (clock_of_ticks [10; 15]) in
  let '(r, T, w) := Timer.start "a" (Timer.__init__ injected) w0 in
  r = Return tt
  /\ slot "a" T = _Timer.mk (Some 10) []
  /\ fst (call_time_func (Timer._func T) w) = 15
  /\ fst (_Timer.elapsed (slot "a" T) w) = Return 990
  /\ fst (_Timer.elapsed (slot "a" T) w) <> Return (sum [] + (15 - 10))
  /\ calls (fake_clock (snd (_Timer.elapsed (slot "a" T) w))) = calls (fake_clock w)
  /\ calls (time_perf_counter (snd (_Timer.elapsed (slot "a" T) w)))
     = S (calls (time_perf_counter w))
  /\ snd (fst (Timer.elapsed T w)) = T.
Proof.
  vm_compute. repeat split; try reflexivity. discriminate.
Qed.



(** ** Guaranteed release *)

Lemma start_leaves_running name T w :
  running (slot name (snd (fst (Timer.start name T w)))) = true.
Proof.
  destruct (_Timer.start (slot name T)) as [t0|] eqn:E.
  - rewrite (start_running _ _ _ _ E). simpl. unfold running. now rewrite E.
  - rewrite (start_idle _ _ _ E). simpl. now rewrite slot_setitem.
Qed.

Lemma stop_leaves_idle name T w :
  running (slot name (snd (fst (Timer.stop name T w)))) = false.
Proof.
  destruct (_Timer.start (slot name T)) as [t0|] eqn:E.
  - rewrite (stop_running _ _ _ _ E). simpl. now rewrite slot_setitem.
  - rewrite (stop_idle _ _ _ E). simpl. revert E.
    unfold running, slot, Timer.getitem. simpl.
    destruct (lookup name (Timer._timers T)) as [s|] eqn:L; simpl.
    + rewrite L. simpl. now intros ->.
    + now rewrite (lookup_app_fresh _ _ _ L).
Qed.

Lemma stop_returns_when_running name T w :
  running (slot name T) = true -> fst (fst (Timer.stop name T w)) = Return tt.
Proof.
  unfold running. destruct (_Timer.start (slot name T)) as [t0|] eqn:E;
    [|discriminate].
  intros _. now rewrite (stop_running _ _ _ _ E).
Qed.

(** C1 as stated fails.  A wrapped call made while the slot named after
    the operation is already Running (a re-entrant call, or after
    [obj.timer.start("compute")]) raises [Already started] from the
    wrapper's own [start], without invoking the original operation, whose
    outcome would have been 42, and the slot is still Running afterwards.
    And when the operation stops its own slot, the wrapper's [stop] raises
    [not started] in place of the value 42 the operation returned. *)
Lemma C1_counterexample_slot_already_running :
  let w := mkWorld (clock_of_ticks [1; 2; 3]) (clock_of_ticks []) in
  let tm := Timer.mk perf_counter [("compute"%string, _Timer.mk (Some 1) [])] in
  let self := mkInstance (Some tm) [] in
  let fresh := mkInstance (Some (Timer.__init__ perf_counter)) [] in
  (fst (fst (call compute_42 [] self w)) = Return (VInt 42)
   /\ fst (fst (call (TimedMetaClass.fn_ compute_42) [] self w))
      = Raise (Timer.already_started "compute")
   /\ exists tm', _timer (snd (fst (call (TimedMetaClass.fn_ compute_42) [] self w)))
                  = Some tm'
                  /\ running (slot "compute" tm') = true)
  /\ (fst (fst (call (TimedMetaClass.fn_ compute_stops_itself) [] fresh w))
      = Raise (Timer.not_started "compute")
      /\ exists self1 w1,
           Timer.start "compute" (Timer.__init__ perf_counter) w
           = (Return tt, self1, w1)
           /\ fst (fst (call compute_stops_itself [] (set_timer self1 fresh) w1))
              = Return (VInt 42)).
Proof.
  intros w tm self fresh. split.
  - split; [reflexivity|]. split; [reflexivity|].
    exists tm. split; reflexivity.
  - split; [reflexivity|]. eexists _, _. split; reflexivity.
Qed.

(** C1, amended.  A wrapped call on an instance that has its Timer, made
    while the slot named after the operation is not Running: the wrapper
    starts that slot and invokes the original operation with the same
    arguments.  When the operation leaves the instance its [_timer], the
    wrapper then calls [stop] on that slot of that Timer, whether the
    operation returned or raised, so the slot is Idle afterwards; the
    outcome of the original (value or failure) is the outcome of the
    wrapper whenever the operation left that slot Running, and otherwise
    the wrapper raises [not started].  When the operation removed
    [_timer] from the instance, the wrapper raises [AttributeError] and
    no [stop] is called.  A wrapped call made while the slot is Running
    raises [Already started] and changes nothing.  For [with timer: body] entered
    while "main" is not Running: "main" is started, and however the block
    is left, [stop("main")] is called on the Timer the block left, "main" is
    Idle afterwards, and the block's outcome is propagated whenever the
    block left "main" Running. *)
Theorem C1_guaranteed_release :
  (forall fn args self w tm,
      _timer self = Some tm ->
      running (slot (__name__ fn) tm) = false ->
      exists tm1 w1,
        Timer.start (__name__ fn) tm w = (Return tt, tm1, w1)
        /\ running (slot (__name__ fn) tm1) = true
        /\ (forall rt self2 w2 tm2,
               call fn args (set_timer tm1 self) w1 = (rt, self2, w2) ->
               _timer self2 = Some tm2 ->
               exists r tm3 w3,
                 call (TimedMetaClass.fn_ fn) args self w = (r, set_timer tm3 self2, w3)
                 /\ tm3 = snd (fst (Timer.stop (__name__ fn) tm2 w2))
                 /\ w3 = snd (Timer.stop (__name__ fn) tm2 w2)
                 /\ running (slot (__name__ fn) tm3) = false
                 /\ (running (slot (__name__ fn) tm2) = true -> r = rt)
                 /\ (running (slot (__name__ fn) tm2) = false ->
                     r = Raise (Timer.not_started (__name__ fn))))
        /\ (forall rt self2 w2,
               call fn args (set_timer tm1 self) w1 = (rt, self2, w2) ->
               _timer self2 = None ->
               call (TimedMetaClass.fn_ fn) args self w
               = (Raise TimedMetaClass.no_timer, self2, w2)))
  /\ (forall fn args self w tm,
         _timer self = Some tm ->
         running (slot (__name__ fn) tm) = true ->
         call (TimedMetaClass.fn_ fn) args self w
         = (Raise (Timer.already_started (__name__ fn)), self, w))
  /\ (forall (A : Type) (body : Timer.t -> World -> outcome A * Timer.t * World) T w,
         running (slot "main" T) = false ->
         exists T1 w1,
           Timer.start "main" T w = (Return tt, T1, w1)
           /\ running (slot "main" T1) = true
           /\ forall o T2 w2,
                body T1 w1 = (o, T2, w2) ->
                exists r,
                  with_ body T w
                  = (r, snd (fst (Timer.stop "main" T2 w2)), snd (Timer.stop "main" T2 w2))
                  /\ running (slot "main" (snd (fst (with_ body T w)))) = false
                  /\ (running (slot "main" T2) = true -> r = o)).
Proof.
  split.
  - intros fn args self w tm Htm Hidle.
    apply running_false_start in Hidle.
    pose proof (start_leaves_running (__name__ fn) tm w) as Hrun.
    rewrite (start_idle _ _ _ Hidle) in Hrun |- *. simpl in Hrun.
    eexists _, _. split; [reflexivity|]. split; [exact Hrun|].
    split.
    2:{ intros rt self2 w2 Hcall Hnone.
        unfold call at 1.
        cbn [TimedMetaClass.fn_ __params__ accepts __code__ __name__].
        now rewrite Htm, (start_idle _ _ _ Hidle), Hcall, Hnone. }
    intros rt self2 w2 tm2 Hcall Htm2.
    pose proof (stop_leaves_idle (__name__ fn) tm2 w2) as Hidle'.
    pose proof (stop_returns_when_running (__name__ fn) tm2 w2) as Hret.
    unfold call at 1. cbn [TimedMetaClass.fn_ __params__ accepts __code__ __name__].
    rewrite Htm, (start_idle _ _ _ Hidle), Hcall, Htm2.
    pose proof (fun H => f_equal (fun r => fst (fst r))
                           (stop_idle (__name__ fn) tm2 w2 (running_false_start _ H)))
      as Hraise.
    destruct (Timer.stop (__name__ fn) tm2 w2) as [[[u|e] tm3] w3];
      simpl in *; eexists _, _, _; (split; [reflexivity|]);
      repeat split; auto.
    + intros H. specialize (Hraise H). discriminate.
    + intros H. specialize (Hret H). discriminate.
    + intros H. specialize (Hraise H). now injection Hraise as ->.
  - split.
    { intros fn args self w tm Htm Hrun.
      unfold running in Hrun.
      destruct (_Timer.start (slot (__name__ fn) tm)) as [t0|] eqn:E; [|discriminate].
      unfold call. cbn [TimedMetaClass.fn_ __params__ accepts __code__ __name__].
      rewrite Htm, (start_running _ _ _ _ E).
      destruct self as [tmr d]. simpl in Htm. now subst tmr. }
    intros A body T w Hidle.
    apply running_false_start in Hidle.
    pose proof (start_leaves_running "main" T w) as Hrun.
    rewrite (start_idle _ _ _ Hidle) in Hrun |- *. simpl in Hrun.
    eexists _, _. split; [reflexivity|]. split; [exact Hrun|].
    intros o T2 w2 Hbody.
    pose proof (stop_leaves_idle "main" T2 w2) as Hidle'.
    pose proof (stop_returns_when_running "main" T2 w2) as Hret.
    unfold with_, Timer.__enter__, Timer.__exit__.
    rewrite (start_idle _ _ _ Hidle), Hbody.
    destruct (Timer.stop "main" T2 w2) as [[[u|e] T3] w3];
      simpl in *; eexists; (split; [reflexivity|]); split; auto.
    intros H. specialize (Hret H). discriminate.
Qed.

Lemma C1_guaranteed_release_witness :
  let w := mkWorld (clock_of_ticks [3; 8]) (clock_of_ticks []) in
  let self := mkInstance (Some (Timer.__init__ perf_counter)) [] in
  exists tm3 w3,
    call (TimedMetaClass.fn_ compute_fails) [] self w
    = (Raise (DomainError 7), set_timer tm3 self, w3)
    /\ slot "compute" tm3 = _Timer.mk None [5].
Proof.
  intros w self.
  destruct (proj1 C1_guaranteed_release compute_fails [] self w
              (Timer.__init__ perf_counter) eq_refl eq_refl)
    as (tm1 & w1 & Hstart & Hrun & Hcall & _).
  injection Hstart as <- <-.
  destruct (Hcall _ _ _ _ eq_refl eq_refl)
    as (r & tm3 & w3 & Hw & Htm3 & Hw3 & Hidle & Hr & _).
  rewrite (Hr eq_refl) in Hw.
  exists tm3, w3. split.
  - exact Hw.
  - rewrite Htm3. reflexivity.
Defined.

(** ** [sorted] *)

Section SortedFacts.
Context {A : Type} (key : A -> Z).

Let ascending (a b : A) : Prop := key a <= key b.
Let descending (a b : A) : Prop := key b <= key a.
Let has_key (v : Z) (a : A) : bool := key a =? v.

Lemma insert_by_perm x l : Permutation (insert_by key x l) (x :: l).
Proof.
  induction l as [|y l IH]; simpl; [reflexivity|].
  destruct (key x <=? key y); [reflexivity|].
  rewrite IH. apply perm_swap.
Qed.

Lemma stable_sort_perm l : Permutation (stable_sort key l) l.
Proof.
  induction l as [|x l IH]; simpl; [reflexivity|].
  rewrite insert_by_perm. now constructor.
Qed.

Lemma sorted_perm reverse l : Permutation (sorted key reverse l) l.
Proof.
  destruct reverse; simpl; [|apply stable_sort_perm].
  rewrite <- Permutation_rev, stable_sort_perm. symmetry. apply Permutation_rev.
Qed.

Lemma insert_by_ascending x l :
  StronglySorted ascending l -> StronglySorted ascending (insert_by key x l).
Proof.
  induction 1 as [|y l Hs IH Hall]; simpl.
  - repeat constructor.
  - destruct (Z.leb_spec (key x) (key y)) as [Hle|Hlt].
    + constructor; [now constructor|].
      constructor; [exact Hle|].
      eapply Forall_impl; [|exact Hall].
      unfold ascending. intros a Ha. lia.
    + constructor; [exact IH|].
      eapply Permutation_Forall; [symmetry; apply insert_by_perm|].
      constructor; [unfold ascending; lia | exact Hall].
Qed.

Lemma stable_sort_ascending l : StronglySorted ascending (stable_sort key l).
Proof.
  induction l as [|x l IH]; simpl; [constructor|].
  now apply insert_by_ascending.
Qed.

Lemma StronglySorted_snoc (R : A -> A -> Prop) l x :
  StronglySorted R l -> Forall (fun y => R y x) l -> StronglySorted R (l ++ [x]).
Proof.
  induction 1 as [|y l Hs IH Hall]; simpl; intros Hx.
  - repeat constructor.
  - inversion Hx as [|? ? Hyx Hlx]; subst.
    constructor; [now apply IH|].
    apply Forall_app. split; [exact Hall | now repeat constructor].
Qed.

Lemma rev_ascending_descending l :
  StronglySorted ascending l -> StronglySorted descending (rev l).
Proof.
  induction 1 as [|y l Hs IH Hall]; simpl; [constructor|].
  apply StronglySorted_snoc; [exact IH|].
  apply Forall_rev. exact Hall.
Qed.

Lemma sorted_reverse_descending l :
  StronglySorted descending (sorted key true l).
Proof. apply rev_ascending_descending, stable_sort_ascending. Qed.

(** Stability: the elements with a given key keep their order. *)
Lemma filter_insert_by v x l :
  filter (has_key v) (insert_by key x l)
  = if has_key v x then x :: filter (has_key v) l else filter (has_key v) l.
Proof.
  induction l as [|y l IH]; simpl; [reflexivity|].
  destruct (Z.leb_spec (key x) (key y)) as [Hle|Hlt]; simpl; [reflexivity|].
  rewrite IH. unfold has_key.
  destruct (Z.eqb_spec (key x) v), (Z.eqb_spec (key y) v); try reflexivity.
  lia.
Qed.

Lemma filter_stable_sort v l :
  filter (has_key v) (stable_sort key l) = filter (has_key v) l.
Proof.
  induction l as [|x l IH]; simpl; [reflexivity|].
  now rewrite filter_insert_by, IH.
Qed.

Lemma filter_sorted v reverse l :
  filter (has_key v) (sorted key reverse l) = filter (has_key v) l.
Proof.
  destruct reverse; simpl; [|apply filter_stable_sort].
  now rewrite filter_rev, filter_stable_sort, filter_rev, rev_involutive.
Qed.
End SortedFacts.

(** ** Order of occurrence *)

Lemma before_cons {A : Type} (x a b : A) l : before l a b -> before (x :: l) a b.
Proof.
  intros (l1 & l2 & l3 & ->). now exists (x :: l1), l2, l3.
Qed.

Lemma before_head {A : Type} (a b : A) l : In b l -> before (a :: l) a b.
Proof.
  intros Hin. apply in_split in Hin. destruct Hin as (l2 & l3 & ->).
  now exists [], l2, l3.
Qed.

Lemma before_filter {A : Type} (p : A -> bool) (a b : A) l :
  before l a b -> p a = true -> p b = true -> before (filter p l) a b.
Proof.
  intros (l1 & l2 & l3 & ->) Ha Hb.
  exists (filter p l1), (filter p l2), (filter p l3).
  rewrite filter_app. simpl. rewrite Ha, filter_app. simpl. now rewrite Hb.
Qed.

Lemma before_of_filter {A : Type} (p : A -> bool) (a b : A) l :
  before (filter p l) a b -> before l a b.
Proof.
  induction l as [|x l IH]; intros (l1 & l2 & l3 & H); simpl in H.
  - now destruct l1.
  - destruct (p x) eqn:Px.
    + destruct l1 as [|y l1]; simpl in H; injection H as -> H.
      * apply before_head.
        assert (Hin : In b (filter p l)) by (rewrite H; apply in_elt).
        apply filter_In in Hin. tauto.
      * apply before_cons, IH. now exists l1, l2, l3.
    + apply before_cons, IH. now exists l1, l2, l3.
Qed.

(** A list in descending order of the values that lists the pairs of each
    value in the order of [pairs] follows [report_precedes pairs]. *)
Lemma descending_stable_precedes (pairs listed : list (string * Z)) :
  StronglySorted (fun a b => snd b <= snd a) listed ->
  (forall a b, before listed a b -> snd a = snd b -> before pairs a b) ->
  StronglySorted (report_precedes pairs) listed.
Proof.
  induction 1 as [|a rest Hs IH Hall]; intros Hord; constructor.
  - apply IH. intros x y Hxy. apply Hord. now apply before_cons.
  - rewrite Forall_forall in Hall |- *. intros b Hb.
    specialize (Hall b Hb). unfold report_precedes.
    destruct (Z.eq_dec (snd a) (snd b)) as [Heq|Hne]; [|left; lia].
    right. split; [exact Heq|]. apply Hord; [now apply before_head | exact Heq].
Qed.

(** ** [dict] of pairs with distinct keys *)

Lemma dict_acc_distinct {V : Type} (l : list (string * V)) : forall acc,
  NoDup (keys l) ->
  (forall k, In k (keys l) -> lookup k acc = None) ->
  fold_left (fun d kv => setitem (fst kv) (snd kv) d) l acc = acc ++ l.
Proof.
  induction l as [|[k v] l IH]; intros acc Hnd Hfresh; simpl.
  - now rewrite app_nil_r.
  - inversion Hnd as [|? ? Hnotin Hnd']; subst.
    rewrite setitem_absent by (apply Hfresh; now left).
    rewrite IH; [now rewrite <- app_assoc | exact Hnd' |].
    intros k' Hin. rewrite lookup_app_other.
    + apply Hfresh. now right.
    + intros ->. contradiction.
Qed.

Lemma dict_distinct {V : Type} (l : list (string * V)) :
  NoDup (keys l) -> dict l = l.
Proof.
  intros Hnd. unfold dict. now rewrite dict_acc_distinct.
Qed.

Lemma NoDup_keys_setitem {V : Type} k (v : V) d :
  NoDup (keys d) -> NoDup (keys (setitem k v d)).
Proof.
  intros Hnd. destruct (lookup k d) as [v0|] eqn:L.
  - rewrite keys_setitem_present; [exact Hnd | congruence].
  - rewrite (setitem_absent _ _ _ L). unfold keys. rewrite map_app. simpl.
    eapply Permutation_NoDup; [apply Permutation_cons_append|].
    constructor; [now apply lookup_None_notin | exact Hnd].
Qed.

Lemma keys_items_elapsed d : forall w pairs w',
  Timer.items_elapsed d w = (Return pairs, w') -> keys pairs = keys d.
Proof.
  induction d as [|[k v] d IH]; intros w pairs w'; simpl.
  - intros H. now injection H as <- _.
  - destruct (_Timer.elapsed v w) as [[e|e] w1]; [|discriminate].
    specialize (IH w1).
    destruct (Timer.items_elapsed d w1) as [[rest|e'] w2]; [|discriminate].
    intros H. injection H as <- _. simpl. f_equal. now apply (IH rest w2).
Qed.

(** Whether a read returns depends on the slot, not on the clocks. *)
Lemma elapsed_returns s w :
  is_Return (fst (_Timer.elapsed s w)) = readable s.
Proof.
  unfold _Timer.elapsed, readable.
  destruct (_Timer.truthy (_Timer.start s)); simpl; [|reflexivity].
  now destruct (tick (time_perf_counter w)).
Qed.

Lemma items_elapsed_returns d : forall w,
  is_Return (fst (Timer.items_elapsed d w)) = forallb readable (values d).
Proof.
  induction d as [|[k v] d IH]; intros w; simpl; [reflexivity|].
  rewrite <- (elapsed_returns v w).
  destruct (_Timer.elapsed v w) as [[e|e] w1]; simpl; [|reflexivity].
  rewrite <- (IH w1).
  now destruct (Timer.items_elapsed d w1) as [[rest|e'] w2].
Qed.

Lemma Timer_elapsed_returns T w :
  forallb readable (values (Timer._timers T)) = true ->
  is_Return (fst (fst (Timer.elapsed T w))) = true.
Proof.
  intros Hall. unfold Timer.elapsed, contains, Timer.getitem.
  destruct (lookup "main"%string (Timer._timers T)) as [s|] eqn:L.
  - pose proof (elapsed_returns s w) as Hs.
    destruct (_Timer.elapsed s w) as [r w']. simpl in *. rewrite Hs.
    rewrite forallb_forall in Hall. apply Hall.
    apply lookup_In in L. unfold values. now apply (in_map snd) in L.
  - rewrite sum_elapsed_items.
    pose proof (items_elapsed_returns (Timer._timers T) w) as Hi.
    rewrite Hall in Hi.
    now destruct (Timer.items_elapsed (Timer._timers T) w) as [[pairs|e] w'].
Qed.

Lemma report_order_distinct (pairs : list (string * Z)) :
  NoDup (keys pairs) ->
  Timer.report_order (dict pairs) = sorted snd true (sorted snd false pairs).
Proof.
  intros Hnd. unfold Timer.report_order.
  rewrite (dict_distinct pairs Hnd). rewrite dict_distinct; [reflexivity|].
  eapply Permutation_NoDup; [|exact Hnd].
  unfold keys. apply Permutation_map. symmetry. apply sorted_perm.
Qed.

(** C5.  The text [repr] returns is the total-elapsed line followed by
    one line [name: duration] per slot of the registry; the lines run in
    descending order of the slots' [elapsed] values, and the slots with one
    and the same value keep the order in which they were registered: of
    two lines, the earlier one has the strictly greater value, or the same
    value and the earlier place in the registry ([report_precedes]).
    Producing it leaves the Timer unchanged.  ([repr] raises, instead,
    when the read of some slot's [elapsed] raises.)  Scenario: with slots
    x (3) and y (7) the line of y comes before the line of x. *)
Theorem C5_report_descending_stable :
  (forall str_timedelta T w,
      NoDup (keys (Timer._timers T)) ->
      match Timer.items_elapsed (Timer._timers T) w with
      | (Raise e, w1) => Timer.__repr__ str_timedelta T w = (Raise e, T, w1)
      | (Return pairs, w1) =>
          let listed := Timer.report_order (dict pairs) in
          (exists total,
              fst (fst (Timer.elapsed T w1)) = Return total
              /\ Timer.__repr__ str_timedelta T w
                 = (Return ("Total elapsed: " ++ str_timedelta total
                              ++ " <seconds>" ++ nl
                              ++ join_lines (map (Timer.report_line str_timedelta) listed)),
                    T, snd (Timer.elapsed T w1))%string)
          /\ keys pairs = keys (Timer._timers T)
          /\ Permutation listed pairs
          /\ List.length listed = List.length (Timer._timers T)
          /\ StronglySorted (fun a b => snd b <= snd a) listed
          /\ (forall v, filter (fun p => snd p =? v) listed
                        = filter (fun p => snd p =? v) pairs)
          /\ StronglySorted (report_precedes pairs) listed
      end)
  /\ (forall str_timedelta w,
         let T := Timer.mk perf_counter
                    [("x"%string, _Timer.mk None [3]); ("y"%string, _Timer.mk None [7])] in
         fst (fst (Timer.__repr__ str_timedelta T w))
         = Return ("Total elapsed: " ++ str_timedelta 10 ++ " <seconds>" ++ nl
                     ++ "  |- y: " ++ str_timedelta 7 ++ nl
                     ++ "  |- x: " ++ str_timedelta 3)%string).
Proof.
  split.
  - intros str_timedelta T w Hnd.
    pose proof (items_elapsed_returns (Timer._timers T) w) as Hret.
    destruct (Timer.items_elapsed (Timer._timers T) w) as [[pairs|e] w1] eqn:E.
    2:{ unfold Timer.__repr__. now rewrite E. }
    intros listed. simpl in Hret. symmetry in Hret.
    assert (Hkeys : keys pairs = keys (Timer._timers T))
      by exact (keys_items_elapsed _ _ _ _ E).
    assert (Hnd' : NoDup (keys pairs)) by now rewrite Hkeys.
    assert (Hlisted : listed = sorted snd true (sorted snd false pairs))
      by now apply report_order_distinct.
    assert (Hperm : Permutation listed pairs)
      by (rewrite Hlisted; now rewrite !sorted_perm).
    assert (Hdesc : StronglySorted (fun a b => snd b <= snd a) listed)
      by (rewrite Hlisted; apply (sorted_reverse_descending snd)).
    assert (Hstable : forall v, filter (fun p => snd p =? v) listed
                                = filter (fun p => snd p =? v) pairs)
      by (intros v; rewrite Hlisted; now rewrite !(filter_sorted snd v)).
    split; [|split; [exact Hkeys|split; [exact Hperm|split;
              [|split; [exact Hdesc|split; [exact Hstable|]]]]]].
    + unfold Timer.__repr__, Timer.report_lines. rewrite E.
      pose proof (Timer_elapsed_keeps_timer T w1) as Hkeep.
      pose proof (Timer_elapsed_returns T w1 Hret) as Htot.
      destruct (Timer.elapsed T w1) as [[[total|e] T'] w2]; [|discriminate].
      simpl in *. subst T'. exists total. split; reflexivity.
    + rewrite (Permutation_length Hperm).
      rewrite <- (length_map fst), <- (length_map fst (Timer._timers T)).
      f_equal. exact Hkeys.
    + apply descending_stable_precedes; [exact Hdesc|].
      intros a b Hab Heq.
      apply (before_of_filter (fun p => snd p =? snd a)).
      rewrite <- Hstable. apply before_filter; [exact Hab| |].
      * apply Z.eqb_refl.
      * rewrite Heq. apply Z.eqb_refl.
  - intros str_timedelta w. vm_compute. reflexivity.
Qed.

Lemma C5_report_descending_stable_witness :
  let T := Timer.mk perf_counter
             [("a"%string, _Timer.mk None [3]); ("b"%string, _Timer.mk None [7]);
              ("c"%string, _Timer.mk None [1; 2])] in
  let w := mkWorld (clock_of_ticks []) (clock_of_ticks []) in
  let pairs := [("a"%string, 3); ("b"%string, 7); ("c"%string, 3)] in
  NoDup (keys (Timer._timers T))
  /\ Timer.items_elapsed (Timer._timers T) w = (Return pairs, w)
  /\ Timer.report_order (dict pairs)
     = [("b"%string, 7); ("a"%string, 3); ("c"%string, 3)]
  /\ StronglySorted (fun a b => snd b <= snd a) (Timer.report_order (dict pairs)).
Proof.
  intros T w pairs.
  assert (Hnd : NoDup (keys (Timer._timers T))).
  { repeat constructor; simpl; intuition discriminate. }
  assert (Hitems : Timer.items_elapsed (Timer._timers T) w = (Return pairs, w))
    by (vm_compute; reflexivity).
  split; [exact Hnd|]. split; [exact Hitems|]. split; [reflexivity|].
  pose proof (proj1 C5_report_descending_stable (fun _ => EmptyString) T w Hnd) as H.
  rewrite Hitems in H.
  exact (proj1 (proj2 (proj2 (proj2 (proj2 H))))).
Defined.

(** ** A name that was never started *)

(** What the registry is after one call, in terms of [setitem] and of the
    inserting lookup. *)
Lemma step_registry o T w :
  let name := match o with Start n => n | Stop n => n end in
  Timer._func (snd (fst (step o T w))) = Timer._func T
  /\ (Timer._timers (snd (fst (step o T w))) = Timer._timers T
      \/ Timer._timers (snd (fst (step o T w)))
         = snd (Timer.getitem name (Timer._timers T))
      \/ exists s, Timer._timers (snd (fst (step o T w)))
                   = setitem name s (Timer._timers T)).
Proof.
  destruct o as [n|n]; simpl;
    destruct (_Timer.start (slot n T)) as [t0|] eqn:E.
  - rewrite (start_running _ _ _ _ E). simpl. auto.
  - rewrite (start_idle _ _ _ E). simpl. eauto.
  - rewrite (stop_running _ _ _ _ E). simpl. eauto.
  - rewrite (stop_idle _ _ _ E). simpl. auto.
Qed.

Lemma getitem_registry name (d : list (string * _Timer.t)) :
  snd (Timer.getitem name d) = d
  \/ (lookup name d = None /\ snd (Timer.getitem name d) = setitem name _Timer.__init__ d).
Proof.
  unfold Timer.getitem. destruct (lookup name d) eqn:L; simpl; [now left|].
  right. split; [reflexivity|]. now rewrite setitem_absent.
Qed.

Lemma step_keeps_distinct o T w :
  NoDup (keys (Timer._timers T)) ->
  NoDup (keys (Timer._timers (snd (fst (step o T w))))).
Proof.
  intros Hnd. destruct (step_registry o T w) as [_ [H | [H | [s H]]]]; rewrite H.
  - exact Hnd.
  - destruct (getitem_registry (match o with Start n => n | Stop n => n end)
                (Timer._timers T)) as [H' | [_ H']]; rewrite H';
      [exact Hnd | now apply NoDup_keys_setitem].
  - now apply NoDup_keys_setitem.
Qed.

Lemma step_other_name o T w name :
  match o with Start n => n | Stop n => n end <> name ->
  lookup name (Timer._timers (snd (fst (step o T w))))
  = lookup name (Timer._timers T).
Proof.
  intros Hne. destruct (step_registry o T w) as [_ [H | [H | [s H]]]]; rewrite H.
  - reflexivity.
  - destruct (getitem_registry (match o with Start n => n | Stop n => n end)
                (Timer._timers T)) as [H' | [_ H']]; rewrite H';
      [reflexivity | now apply lookup_setitem_ne].
  - now apply lookup_setitem_ne.
Qed.

Lemma untouched_idle name T : untouched name T -> _Timer.start (slot name T) = None.
Proof.
  unfold untouched, slot, Timer.getitem. now intros [-> | ->].
Qed.

Lemma stop_untouched name T w :
  untouched name T ->
  Timer.stop name T w
  = (Raise (Timer.not_started name),
     Timer.mk (Timer._func T) (snd (Timer.getitem name (Timer._timers T))), w)
  /\ lookup name (snd (Timer.getitem name (Timer._timers T))) = Some _Timer.__init__.
Proof.
  intros Hu. split; [apply stop_idle, untouched_idle, Hu|].
  unfold Timer.getitem. destruct Hu as [H | H]; rewrite H; simpl.
  - now apply lookup_app_fresh.
  - exact H.
Qed.

Lemma run_never_started name ops : forall T w,
  never_started name ops = true ->
  untouched name T -> NoDup (keys (Timer._timers T)) ->
  untouched name (snd (fst (run ops T w)))
  /\ NoDup (keys (Timer._timers (snd (fst (run ops T w))))).
Proof.
  induction ops as [|o ops IH]; intros T w Hns Hu Hnd; simpl.
  - auto.
  - simpl in Hns. apply andb_true_iff in Hns. destruct Hns as [Ho Hns].
    pose proof (step_keeps_distinct o T w Hnd) as Hnd1.
    assert (Hu1 : untouched name (snd (fst (step o T w)))).
    { destruct o as [n|n].
      - assert (Hne : n <> name).
        { intros ->. rewrite String.eqb_refl in Ho. discriminate. }
        unfold untouched.
        rewrite (step_other_name (Start n) T w name Hne). exact Hu.
      - destruct (String.eqb_spec n name) as [->|Hne].
        + simpl. destruct (stop_untouched name T w Hu) as [-> Hl]. simpl.
          now right.
        + unfold untouched.
          rewrite (step_other_name (Stop n) T w name Hne). exact Hu. }
    destruct (step o T w) as [[r T1] w1]. simpl in *.
    specialize (IH T1 w1 Hns Hu1 Hnd1).
    destruct (run ops T1 w1) as [[rs T2] w2]. exact IH.
Qed.

Lemma items_elapsed_idle_In d : forall w pairs w' k s,
  Timer.items_elapsed d w = (Return pairs, w') ->
  In (k, s) d -> _Timer.start s = None ->
  exists v, int_to_float (sum (_Timer.times s)) = Return v /\ In (k, v) pairs.
Proof.
  induction d as [|[k0 s0] d IH]; intros w pairs w' k s Hitems Hin Hs;
    simpl in *; [contradiction|].
  destruct (_Timer.elapsed s0 w) as [[e|e] w1] eqn:E; [|discriminate].
  specialize (IH w1).
  destruct (Timer.items_elapsed d w1) as [[rest|e'] w2]; [|discriminate].
  injection Hitems as <- _.
  destruct Hin as [Heq | Hin].
  - injection Heq as -> ->. exists e. split; [|now left].
    rewrite (elapsed_idle _ _ Hs) in E. now injection E as -> _.
  - destruct (IH rest w2 k s eq_refl Hin Hs) as (v & Hv & Hin').
    exists v. split; [exact Hv | now right].
Qed.

Lemma sum_elapsed_fresh_last vs : forall acc w,
  Timer.sum_elapsed (vs ++ [_Timer.__init__]) acc w = Timer.sum_elapsed vs acc w.
Proof.
  induction vs as [|v vs IH]; intros acc w; simpl.
  - now rewrite Z.add_0_r.
  - destruct (_Timer.elapsed v w) as [[e|e] w1]; [apply IH | reflexivity].
Qed.

(** ** Lines of a text *)

Lemma string_app_assoc (a b c : string) :
  ((a ++ b) ++ c = a ++ b ++ c)%string.
Proof. induction a as [|ch a IH]; simpl; [reflexivity | now rewrite IH]. Qed.

Lemma string_app_nil_r (a : string) : (a ++ "" = a)%string.
Proof. induction a as [|ch a IH]; simpl; [reflexivity | now rewrite IH]. Qed.

Lemma occurs_in_join_lines line lines :
  In line lines -> occurs_in line (join_lines lines).
Proof.
  unfold join_lines, occurs_in.
  induction lines as [|x xs IH]; intros Hin; [contradiction|].
  destruct Hin as [-> | Hin].
  - destruct xs as [|y ys]; simpl.
    + exists EmptyString, EmptyString. simpl. now rewrite string_app_nil_r.
    + exists EmptyString. eexists. reflexivity.
  - destruct (IH Hin) as (b & a & Hba).
    destruct xs as [|y ys]; [contradiction|].
    change (String.concat nl (x :: y :: ys))
      with (x ++ nl ++ String.concat nl (y :: ys))%string.
    rewrite Hba. exists (x ++ nl ++ b)%string, a.
    now rewrite !string_app_assoc.
Qed.

Lemma occurs_in_after line prefix text :
  occurs_in line text -> occurs_in line (prefix ++ text).
Proof.
  intros (b & a & ->). exists (prefix ++ b)%string, a.
  now rewrite string_app_assoc.
Qed.

(** C9.  After any calls among which none is [start(name)], [stop(name)]
    raises [not started]; it reads no clock, but it leaves the registry
    with a fresh Idle slot under [name] (appended when the name was not
    registered).  From then on the text [repr] returns has a line for
    [name], with duration 0 ([repr] returns whenever every slot can be
    read), and the slot adds 0 to the sum over all slots. *)
Theorem C9_stop_never_started_registers_slot :
  forall ops name f w str_timedelta,
    never_started name ops = true ->
    let T := snd (fst (run ops (Timer.__init__ f) w)) in
    let w1 := snd (run ops (Timer.__init__ f) w) in
    let T' := snd (fst (Timer.stop name T w1)) in
    Timer.stop name T w1 = (Raise (Timer.not_started name), T', w1)
    /\ lookup name (Timer._timers T') = Some _Timer.__init__
    /\ running (slot name T') = false
    /\ (lookup name (Timer._timers T) = None ->
        Timer._timers T' = Timer._timers T ++ [(name, _Timer.__init__)]
        /\ forall w2, Timer.sum_elapsed (values (Timer._timers T')) 0 w2
                      = Timer.sum_elapsed (values (Timer._timers T)) 0 w2)
    /\ (forall w2, _Timer.elapsed _Timer.__init__ w2 = (Return 0, w2))
    /\ forall w2,
         match Timer.__repr__ str_timedelta T' w2 with
         | (Return text, _, _) =>
             (exists total lines,
                 text = ("Total elapsed: " ++ str_timedelta total ++ " <seconds>"
                           ++ nl ++ join_lines lines)%string
                 /\ In (Timer.report_line str_timedelta (name, 0)) lines)
             /\ occurs_in (Timer.report_line str_timedelta (name, 0)) text
         | (Raise e, _, _) =>
             forallb readable (values (Timer._timers T')) = false
         end.
Proof.
  intros ops name f w str_timedelta Hns T w1 T'.
  destruct (run_never_started name ops (Timer.__init__ f) w Hns) as [Hu Hnd].
  { now left. }
  { constructor. }
  fold T in Hu, Hnd.
  destruct (stop_untouched name T w1 Hu) as [Hstop Hl].
  assert (HT' : T' = Timer.mk (Timer._func T)
                       (snd (Timer.getitem name (Timer._timers T))))
    by (unfold T'; now rewrite Hstop).
  split; [now rewrite Hstop, HT'|].
  split; [now rewrite HT'|].
  split; [unfold running; rewrite (slot_lookup name T' _Timer.__init__);
          [reflexivity | now rewrite HT']|].
  split; [|split; [reflexivity|]].
  - intros Hnone. rewrite HT'. simpl. unfold Timer.getitem. rewrite Hnone. simpl.
    split; [reflexivity|]. intros w2. unfold values. rewrite map_app. simpl.
    apply sum_elapsed_fresh_last.
  - intros w2.
    assert (Hnd' : NoDup (keys (Timer._timers T'))).
    { rewrite HT'. simpl.
      destruct (getitem_registry name (Timer._timers T)) as [H' | [_ H']];
        rewrite H'; [exact Hnd | now apply NoDup_keys_setitem]. }
    unfold Timer.__repr__.
    pose proof (items_elapsed_returns (Timer._timers T') w2) as Hret.
    destruct (Timer.items_elapsed (Timer._timers T') w2) as [[pairs|e] w3] eqn:E;
      simpl in Hret; [|now symmetry].
    pose proof (Timer_elapsed_returns T' w3 (eq_sym Hret)) as Htot.
    destruct (Timer.elapsed T' w3) as [[[total|e] T''] w4]; [|discriminate].
    assert (Hin : In (Timer.report_line str_timedelta (name, 0))
                     (Timer.report_lines str_timedelta pairs)).
    { unfold Timer.report_lines. apply in_map.
      rewrite report_order_distinct
        by now rewrite (keys_items_elapsed _ _ _ _ E).
      eapply Permutation_in.
      - symmetry. rewrite !sorted_perm. reflexivity.
      - destruct (items_elapsed_idle_In _ _ _ _ name _Timer.__init__ E)
          as (v & Hv & Hin); [apply lookup_In; now rewrite HT' | reflexivity|].
        vm_compute in Hv. now injection Hv as <-. }
    split; [eexists _, _; split; [reflexivity | exact Hin]|].
    rewrite <- !string_app_assoc. apply occurs_in_after.
    now apply occurs_in_join_lines.
Qed.

Lemma C9_stop_never_started_registers_slot_witness :
  let w := mkWorld (clock_of_ticks []) (clock_of_ticks [0; 5]) in
  let ops := [Start "a"; Stop "a"]%string in
  let T := snd (fst (run ops (Timer.__init__ injected) w)) in
  let w1 := snd (run ops (Timer.__init__ injected) w) in
  let T' := snd (fst (Timer.stop "b" T w1)) in
  let str_timedelta := fun v : Z => if v =? 0 then "0:00:00"%string else "0:00:05"%string in
  never_started "b" ops = true
  /\ fst (fst (Timer.stop "b" T w1)) = Raise (Timer.not_started "b")
  /\ keys (Timer._timers T') = ["a"; "b"]%string
  /\ fst (fst (Timer.__repr__ str_timedelta T' w1))
     = Return ("Total elapsed: 0:00:05 <seconds>" ++ nl
                 ++ "  |- a: 0:00:05" ++ nl ++ "  |- b: 0:00:00")%string
  /\ occurs_in "  |- b: 0:00:00"
       ("Total elapsed: 0:00:05 <seconds>" ++ nl
          ++ "  |- a: 0:00:05" ++ nl ++ "  |- b: 0:00:00")%string.
Proof.
  intros w ops T w1 T' str_timedelta.
  pose proof (C9_stop_never_started_registers_slot ops "b"%string injected w
                str_timedelta eq_refl) as H.
  split; [reflexivity|].
  split; [exact (f_equal (fun r => fst (fst r)) (proj1 H))|].
  split; [reflexivity|]. split; [reflexivity|].
  exact (proj2 (proj2 (proj2 (proj2 (proj2 (proj2 H)))) w1)).
Defined.

(** ** The wrapping loop of [TimedMetaClass.__new__] *)

Lemma wrap_loop_lookup items : forall attrs,
  NoDup (keys items) ->
  exists attrs',
    TimedMetaClass.wrap_loop items attrs = Return attrs'
    /\ forall n,
         lookup n attrs'
         = match lookup n items with
           | Some (AFunction f) =>
               if TimedMetaClass.startswith__ n then lookup n attrs
               else Some (AFunction (TimedMetaClass.fn_ f))
           | _ => lookup n attrs
           end.
Proof.
  induction items as [|[name_ value_] items IH]; intros attrs Hnd.
  - exists attrs. split; [reflexivity|]. reflexivity.
  - inversion Hnd as [|? ? Hnotin Hnd']; subst.
    apply notin_lookup_None in Hnotin.
    cbn [TimedMetaClass.wrap_loop].
    destruct (negb (TimedMetaClass.startswith__ name_) && is_function value_) eqn:C.
    + apply andb_true_iff in C. destruct C as [Cn Cf].
      apply negb_true_iff in Cn.
      destruct value_ as [f| |]; try discriminate. cbn [TimedMetaClass._timed].
      destruct (IH (setitem name_ (AFunction (TimedMetaClass.fn_ f)) attrs) Hnd')
        as (attrs' & Hloop & Hl).
      exists attrs'. split; [exact Hloop|].
      intros n. rewrite Hl. cbn [lookup].
      destruct (String.eqb_spec n name_) as [->|Hne].
      * rewrite Hnotin, Cn. apply lookup_setitem_eq.
      * rewrite lookup_setitem_ne by congruence. reflexivity.
    + destruct (IH attrs Hnd') as (attrs' & Hloop & Hl).
      exists attrs'. split; [exact Hloop|].
      intros n. rewrite Hl. cbn [lookup].
      destruct (String.eqb_spec n name_) as [->|Hne]; [|reflexivity].
      rewrite Hnotin.
      destruct value_ as [f| |]; try reflexivity.
      simpl in C. rewrite andb_true_r in C. apply negb_false_iff in C.
      now rewrite C.
Qed.

Lemma new_class_dict name bases attrs :
  NoDup (keys attrs) ->
  exists dict',
    TimedMetaClass.__new__ name bases attrs = Return (Class name bases dict')
    /\ lookup "timer"%string dict' = Some (AProperty TimedMetaClass.timer_getter)
    /\ lookup "__init__"%string dict' = Some (AFunction (injected_init attrs))
    /\ forall n, n <> "timer"%string -> n <> "__init__"%string ->
                 lookup n dict' = option_map (wrapped_entry n) (lookup n attrs).
Proof.
  intros Hnd. unfold TimedMetaClass.__new__.
  set (init := if contains "__init__" attrs then _ else _).
  assert (Hinit : init = injected_init attrs).
  { unfold init, injected_init, contains.
    now destruct (lookup "__init__"%string attrs). }
  destruct (wrap_loop_lookup (setitem "__init__" (AFunction init) attrs)
              (setitem "__init__" (AFunction init) attrs))
    as (attrs2 & Hloop & Hl).
  { now apply NoDup_keys_setitem. }
  rewrite Hloop. eexists. split; [reflexivity|].
  split; [apply lookup_setitem_eq|]. split.
  - rewrite lookup_setitem_ne by discriminate.
    rewrite Hl, lookup_setitem_eq. cbn. now rewrite Hinit.
  - intros n Hn1 Hn2.
    rewrite lookup_setitem_ne by congruence.
    rewrite Hl, !lookup_setitem_ne by congruence.
    destruct (lookup n attrs) as [[f| |]|]; cbn; try reflexivity.
    now destruct (TimedMetaClass.startswith__ n).
Qed.

Lemma startswith___not_timer n :
  TimedMetaClass.startswith__ n = true -> n <> "timer"%string.
Proof. intros H ->. discriminate. Qed.

Lemma not_startswith___not_init n :
  TimedMetaClass.startswith__ n = false -> n <> "__init__"%string.
Proof. intros H ->. discriminate. Qed.

(** C7 as stated fails: a function bound to a name with a single leading
    underscore is replaced by a timed wrapper.  Called on an instance, the
    class attribute times the call under slot "_helper", which the
    function of the class body does not. *)
Lemma C7_counterexample_single_underscore_wrapped :
  let w := mkWorld (clock_of_ticks [2; 9]) (clock_of_ticks []) in
  let self := mkInstance (Some (Timer.__init__ perf_counter)) [] in
  exists dict',
    TimedMetaClass.__new__ "C" [] [("_helper"%string, AFunction _helper)]
    = Return (Class "C" [] dict')
    /\ lookup "_helper"%string dict' = Some (AFunction (TimedMetaClass.fn_ _helper))
    /\ lookup "_helper"%string dict' <> Some (AFunction _helper)
    /\ _timer (snd (fst (call (TimedMetaClass.fn_ _helper) [] self w)))
       = Some (Timer.mk perf_counter [("_helper"%string, _Timer.mk None [7])])
    /\ _timer (snd (fst (call _helper [] self w)))
       = Some (Timer.__init__ perf_counter).
Proof.
  intros w self. eexists. split; [reflexivity|].
  split; [reflexivity|]. split; [|split; reflexivity].
  cbn. intros H. discriminate H.
Qed.

(** C7, amended.  In the class [__new__] returns, every name the class
    body binds to a function and that does not start with two underscores
    (a single leading underscore included) is bound to the timed wrapper
    of that function; every name that starts with two underscores, other
    than [__init__], and every name bound to something that is not a
    function keeps its value; [__init__] is bound to the injected
    initializer, which is not a timed wrapper.  (The name [timer] is
    rebound to the accessor.) *)
Theorem C7_wraps_functions_not_starting_with_two_underscores :
  forall name bases attrs,
    NoDup (keys attrs) ->
    exists dict',
      TimedMetaClass.__new__ name bases attrs = Return (Class name bases dict')
      /\ (forall n f,
             lookup n attrs = Some (AFunction f) ->
             TimedMetaClass.startswith__ n = false -> n <> "timer"%string ->
             lookup n dict' = Some (AFunction (TimedMetaClass.fn_ f)))
      /\ (forall n v,
             lookup n attrs = Some v ->
             TimedMetaClass.startswith__ n = true -> n <> "__init__"%string ->
             lookup n dict' = Some v)
      /\ (forall n v,
             lookup n attrs = Some v -> is_function v = false ->
             n <> "timer"%string -> n <> "__init__"%string ->
             lookup n dict' = Some v)
      /\ lookup "__init__"%string dict' = Some (AFunction (injected_init attrs))
      /\ lookup "timer"%string dict' = Some (AProperty TimedMetaClass.timer_getter).
Proof.
  intros name bases attrs Hnd.
  destruct (new_class_dict name bases attrs Hnd) as (dict' & Hnew & Htimer & Hinit & Hl).
  exists dict'. split; [exact Hnew|].
  split; [|split; [|split; [|split; [exact Hinit | exact Htimer]]]].
  - intros n f Hn Hs Ht.
    rewrite Hl, Hn by (auto using not_startswith___not_init). cbn. now rewrite Hs.
  - intros n v Hn Hs Hi.
    rewrite Hl, Hn by (auto using startswith___not_timer). cbn.
    destruct v; cbn; try reflexivity. now rewrite Hs.
  - intros n v Hn Hf Ht Hi.
    rewrite Hl, Hn by auto. now destruct v.
Qed.

Lemma C7_wraps_functions_not_starting_with_two_underscores_witness :
  let attrs := [("_helper"%string, AFunction _helper);
                ("__str__"%string, AFunction _helper);
                ("limit"%string, AData (VInt 3))] in
  NoDup (keys attrs)
  /\ exists dict',
       TimedMetaClass.__new__ "C" [] attrs = Return (Class "C" [] dict')
       /\ lookup "_helper"%string dict' = Some (AFunction (TimedMetaClass.fn_ _helper))
       /\ lookup "__str__"%string dict' = Some (AFunction _helper)
       /\ lookup "limit"%string dict' = Some (AData (VInt 3)).
Proof.
  intros attrs.
  assert (Hnd : NoDup (keys attrs)).
  { repeat constructor; simpl; intuition discriminate. }
  split; [exact Hnd|].
  destruct (C7_wraps_functions_not_starting_with_two_underscores "C"%string [] attrs Hnd)
    as (dict' & Hnew & Hwrap & Hdunder & Hdata & _).
  exists dict'. split; [exact Hnew|]. split; [|split].
  - apply Hwrap; [reflexivity | reflexivity | discriminate].
  - apply Hdunder; [reflexivity | reflexivity | discriminate].
  - apply Hdata; [reflexivity | reflexivity | discriminate | discriminate].
Defined.

Lemma wrap_loop_returns items : forall attrs,
  exists attrs', TimedMetaClass.wrap_loop items attrs = Return attrs'.
Proof.
  induction items as [|[name_ value_] items IH]; intros attrs; simpl.
  - now exists attrs.
  - destruct (negb (TimedMetaClass.startswith__ name_) && is_function value_) eqn:C.
    + apply andb_true_iff in C. destruct C as [_ Cf].
      destruct value_; try discriminate. simpl. apply IH.
    + apply IH.
Qed.

(** C8 as stated fails: asked to build a class whose body binds [x] to the
    integer 5, the Instrumenter does not fail; it returns the class with
    [x] left as it is.  And [_timed] applied to that value raises a
    [TypeError] whose message gives the type of the value and no attribute
    name ([_timed] is not told the name). *)
Lemma C8_counterexample_data_attribute_accepted :
  (exists dict',
      TimedMetaClass.__new__ "C" [] [("x"%string, AData (VInt 5))]
      = Return (Class "C" [] dict')
      /\ lookup "x"%string dict' = Some (AData (VInt 5)))
  /\ TimedMetaClass._timed (AData (VInt 5))
     = Raise (TypeError "Need <FunctionType> or <MethodType> but got <class 'int'>").
Proof.
  split; [|reflexivity].
  eexists. split; reflexivity.
Qed.

(** C8, amended.  [_timed] applied to a value that is not a function
    raises [TypeError] with the message
    [Need <FunctionType> or <MethodType> but got <type of the value>];
    building a class never raises, since [__new__] hands to [_timed] only
    the values that are functions. *)
Theorem C8_timed_rejects_non_functions :
  (forall a, is_function a = false ->
             TimedMetaClass._timed a
             = Raise (TypeError ("Need <FunctionType> or <MethodType> but got "
                                   ++ type_repr a)%string))
  /\ (forall name bases attrs,
         exists dict', TimedMetaClass.__new__ name bases attrs
                       = Return (Class name bases dict')).
Proof.
  split.
  - intros [f| |] H; [discriminate | reflexivity | reflexivity].
  - intros name bases attrs. unfold TimedMetaClass.__new__.
    match goal with
    | |- context [TimedMetaClass.wrap_loop ?i ?a] =>
        destruct (wrap_loop_returns i a) as [attrs2 ->]
    end.
    eexists. reflexivity.
Qed.

Lemma C8_timed_rejects_non_functions_witness :
  is_function (AData (VStr "v")) = false
  /\ TimedMetaClass._timed (AData (VStr "v"))
     = Raise (TypeError "Need <FunctionType> or <MethodType> but got <class 'str'>").
Proof.
  split; [reflexivity|].
  exact (proj1 C8_timed_rejects_non_functions (AData (VStr "v")) eq_refl).
Defined.

(** ** Inherited initializers *)

(** C4.  Class A defines [__init__(self, x)] storing [x]; class B derives
    from the instrumented A and defines no initializer.  Built without the
    Instrumenter, [B(5)] runs the inherited initializer and stores 5, and
    [B()] fails for the missing argument.  Built by the Instrumenter,
    [B(5)] fails with a [TypeError] and [B()] returns an instance on which
    the inherited initializer never ran ([x] is not set): the initializer's
    parameters and effect both changed. *)
Theorem C4_inherited_initializer_hidden :
  forall w,
  exists A B dictB,
    TimedMetaClass.__new__ "A" [] [("__init__"%string, AFunction init_x)] = Return A
    /\ TimedMetaClass.__new__ "B" [A] [] = Return B
    /\ B = Class "B" [A] dictB
    /\ construct (Class "B" [A] []) [VInt 5] w
       = (Return (mkInstance (Some (Timer.__init__ perf_counter))
                             [("x"%string, VInt 5)]), w)
    /\ is_Return (fst (construct (Class "B" [A] []) [] w)) = false
    /\ (exists msg, construct B [VInt 5] w = (Raise (TypeError msg), w))
    /\ construct B [] w
       = (Return (mkInstance (Some (Timer.__init__ perf_counter)) []), w).
Proof.
  intros w. eexists _, _, _.
  split; [reflexivity|]. split; [reflexivity|]. split; [reflexivity|].
  split; [reflexivity|]. split; [reflexivity|].
  split; [eexists; reflexivity | reflexivity].
Qed.

(** * Further properties of the Timer *)

Lemma slot_of_lookup name T T' :
  lookup name (Timer._timers T) = lookup name (Timer._timers T') ->
  slot name T = slot name T'.
Proof.
  unfold slot, Timer.getitem. intros ->.
  now destruct (lookup name (Timer._timers T')).
Qed.

Lemma run_other_names name ops : forall T w,
  other_names name ops = true ->
  lookup name (Timer._timers (snd (fst (run ops T w))))
  = lookup name (Timer._timers T).
Proof.
  induction ops as [|o ops IH]; intros T w Hothers; simpl; [reflexivity|].
  simpl in Hothers. apply andb_true_iff in Hothers. destruct Hothers as [Ho Hothers].
  assert (Hne : op_name o <> name).
  { intros Heq. rewrite Heq, String.eqb_refl in Ho. discriminate. }
  pose proof (step_other_name o T w name) as Hstep.
  destruct (step o T w) as [[r T1] w1]. simpl in Hstep.
  specialize (IH T1 w1 Hothers).
  destruct (run ops T1 w1) as [[rs T2] w2]. simpl in *.
  rewrite IH. apply Hstep. destruct o; exact Hne.
Qed.

(** After [stop(name)], returned or not, the name is registered and Idle. *)
Lemma stop_registers name T w :
  exists s, lookup name (Timer._timers (snd (fst (Timer.stop name T w)))) = Some s
            /\ _Timer.start s = None.
Proof.
  destruct (_Timer.start (slot name T)) as [t0|] eqn:E.
  - rewrite (stop_running _ _ _ _ E). simpl. eexists. split;
      [apply lookup_setitem_eq | reflexivity].
  - rewrite (stop_idle _ _ _ E). simpl. revert E.
    unfold slot, Timer.getitem.
    destruct (lookup name (Timer._timers T)) as [s|] eqn:L; simpl; intros E.
    + exists s. now split.
    + exists _Timer.__init__. split; [now apply lookup_app_fresh | reflexivity].
Qed.

(** X1.  Once [start(name)] has been called, whatever it answered, and
    whatever calls on other names follow, a further [start(name)] raises
    [Already started]; it changes neither the Timer nor any clock. *)
Theorem start_again_already_started :
  forall name ops T w,
    other_names name ops = true ->
    let '(_, T1, w1) := Timer.start name T w in
    let '(_, T2, w2) := run ops T1 w1 in
    Timer.start name T2 w2 = (Raise (Timer.already_started name), T2, w2).
Proof.
  intros name ops T w Hothers.
  pose proof (start_leaves_running name T w) as Hrun.
  destruct (Timer.start name T w) as [[r T1] w1]. simpl in Hrun.
  pose proof (run_other_names name ops T1 w1 Hothers) as Hsame.
  destruct (run ops T1 w1) as [[rs T2] w2]. simpl in Hsame.
  apply slot_of_lookup in Hsame. unfold running in Hrun. rewrite <- Hsame in Hrun.
  destruct (_Timer.start (slot name T2)) as [t0|] eqn:E; [|discriminate].
  exact (start_running name T2 w2 t0 E).
Qed.

Lemma start_again_already_started_witness :
  let w := mkWorld (clock_of_ticks []) (clock_of_ticks [4; 6; 9]) in
  let T0 := Timer.__init__ injected in
  other_names "a" [Start "b"; Stop "b"] = true
  /\ let '(_, T1, w1) := Timer.start "a" T0 w in
     let '(_, T2, w2) := run [Start "b"; Stop "b"] T1 w1 in
     Timer.start "a" T2 w2 = (Raise (Timer.already_started "a"), T2, w2).
Proof.
  intros w T0. split; [reflexivity|].
  exact (start_again_already_started "a"%string [Start "b"; Stop "b"]%string T0 w eq_refl).
Defined.

(** X2.  Once [stop(name)] has been called, whatever it answered, and
    whatever calls on other names follow, a further [stop(name)] raises
    [not started]; it changes neither the Timer (the name is registered
    already) nor any clock. *)
Theorem stop_again_not_started :
  forall name ops T w,
    other_names name ops = true ->
    let '(_, T1, w1) := Timer.stop name T w in
    let '(_, T2, w2) := run ops T1 w1 in
    Timer.stop name T2 w2 = (Raise (Timer.not_started name), T2, w2).
Proof.
  intros name ops T w Hothers.
  destruct (stop_registers name T w) as (s & Hs & Hidle).
  destruct (Timer.stop name T w) as [[r T1] w1]. simpl in Hs.
  pose proof (run_other_names name ops T1 w1 Hothers) as Hsame.
  destruct (run ops T1 w1) as [[rs T2] w2]. simpl in Hsame.
  rewrite Hs in Hsame.
  assert (E : _Timer.start (slot name T2) = None)
    by now rewrite (slot_lookup name T2 s Hsame).
  rewrite (stop_idle name T2 w2 E). unfold Timer.getitem. rewrite Hsame. simpl.
  now destruct T2.
Qed.

Lemma stop_again_not_started_witness :
  let w := mkWorld (clock_of_ticks []) (clock_of_ticks [4; 6; 9]) in
  let T0 := snd (fst (Timer.start "a" (Timer.__init__ injected) w)) in
  let w0 := snd (Timer.start "a" (Timer.__init__ injected) w) in
  other_names "a" [Start "b"] = true
  /\ let '(_, T1, w1) := Timer.stop "a" T0 w0 in
     let '(_, T2, w2) := run [Start "b"] T1 w1 in
     Timer.stop "a" T2 w2 = (Raise (Timer.not_started "a"), T2, w2).
Proof.
  intros w T0 w0. split; [reflexivity|].
  exact (stop_again_not_started "a"%string [Start "b"]%string T0 w0 eq_refl).
Defined.

(** X3.  Calls on other names leave the slot of [name] alone: it is
    registered afterwards iff it was before, with the same [start] and
    the same recorded durations. *)
Theorem calls_on_other_names_keep_slot :
  forall name ops T w,
    other_names name ops = true ->
    let T' := snd (fst (run ops T w)) in
    lookup name (Timer._timers T') = lookup name (Timer._timers T)
    /\ slot name T' = slot name T.
Proof.
  intros name ops T w Hothers T'.
  pose proof (run_other_names name ops T w Hothers) as Hsame.
  split; [exact Hsame | now apply slot_of_lookup].
Qed.

Lemma calls_on_other_names_keep_slot_witness :
  let w := mkWorld (clock_of_ticks [1; 2; 3; 4]) (clock_of_ticks []) in
  let T := Timer.mk perf_counter [("a"%string, _Timer.mk (Some 7) [2])] in
  let ops := [Start "b"; Stop "c"; Stop "b"; Start "c"]%string in
  other_names "a" ops = true
  /\ lookup "a"%string (Timer._timers (snd (fst (run ops T w))))
     = Some (_Timer.mk (Some 7) [2]).
Proof.
  intros w T ops. split; [reflexivity|].
  exact (proj1 (calls_on_other_names_keep_slot "a"%string ops T w eq_refl)).
Defined.

(** What one call does, case by case: it raises, leaving the clocks alone
    and the registry as the inserting lookup left it; or it is a [start]
    on a slot that is not running; or a [stop] on a running slot. *)
Lemma step_spec o T w :
  let n := op_name o in
  let f := Timer._func T in
  let now := fst (call_time_func f w) in
  (exists e,
      step o T w
      = (Raise e, Timer.mk f (snd (Timer.getitem n (Timer._timers T))), w))
  \/ (o = Start n
      /\ _Timer.start (slot n T) = None
      /\ step o T w
         = (Return tt,
            Timer.mk f (setitem n (_Timer.mk (Some now) (_Timer.times (slot n T)))
                                (Timer._timers T)),
            snd (call_time_func f w)))
  \/ (exists t0,
         o = Stop n
         /\ _Timer.start (slot n T) = Some t0
         /\ step o T w
            = (Return tt,
               Timer.mk f (setitem n (_Timer.mk None (_Timer.times (slot n T) ++ [now - t0]))
                                   (Timer._timers T)),
               snd (call_time_func f w))).
Proof.
  destruct o as [n|n]; simpl;
    destruct (_Timer.start (slot n T)) as [t0|] eqn:E.
  - left. exists (Timer.already_started n).
    rewrite (start_running _ _ _ _ E). revert E. unfold slot, Timer.getitem.
    destruct (lookup n (Timer._timers T)); simpl; [|discriminate].
    intros _. now destruct T.
  - right. left. split; [reflexivity|]. split; [reflexivity|].
    apply (start_idle _ _ _ E).
  - right. right. exists t0. split; [reflexivity|]. split; [reflexivity|].
    apply (stop_running _ _ _ _ E).
  - left. exists (Timer.not_started n). apply (stop_idle _ _ _ E).
Qed.

Lemma keys_setitem_extends {V : Type} k (v : V) d :
  exists extra, keys (setitem k v d) = keys d ++ extra.
Proof.
  destruct (lookup k d) as [v0|] eqn:L.
  - exists []. rewrite app_nil_r. apply keys_setitem_present. congruence.
  - exists [k]. rewrite (setitem_absent _ _ _ L). unfold keys. now rewrite map_app.
Qed.

Lemma keys_getitem_extends name (d : list (string * _Timer.t)) :
  exists extra, keys (snd (Timer.getitem name d)) = keys d ++ extra.
Proof.
  destruct (getitem_registry name d) as [-> | [_ ->]].
  - exists []. now rewrite app_nil_r.
  - apply keys_setitem_extends.
Qed.

Lemma lookup_app_present {V : Type} k (v : V) d l :
  lookup k d = Some v -> lookup k (d ++ l) = Some v.
Proof.
  induction d as [|[k' v'] d IH]; simpl; [discriminate|].
  destruct (String.eqb k k'); auto.
Qed.

Lemma lookup_getitem_present name k s (d : list (string * _Timer.t)) :
  lookup k d = Some s -> lookup k (snd (Timer.getitem name d)) = Some s.
Proof.
  intros H. unfold Timer.getitem.
  destruct (lookup name d); simpl; [exact H | now apply lookup_app_present].
Qed.

(** X4.  No call removes or reorders a slot: after any calls the names
    registered before are still there, in the same places, followed by
    the names registered since; the names stay distinct and the Timer
    keeps its clock. *)
Theorem registry_only_grows :
  forall ops T w,
    let T' := snd (fst (run ops T w)) in
    (exists extra, keys (Timer._timers T') = keys (Timer._timers T) ++ extra)
    /\ (NoDup (keys (Timer._timers T)) -> NoDup (keys (Timer._timers T')))
    /\ Timer._func T' = Timer._func T.
Proof.
  induction ops as [|o ops IH]; intros T w; simpl.
  - split; [exists []; now rewrite app_nil_r | auto].
  - pose proof (step_keeps_distinct o T w) as Hnd.
    assert (Hk : exists extra, keys (Timer._timers (snd (fst (step o T w))))
                               = keys (Timer._timers T) ++ extra).
    { destruct (step_spec o T w) as [[e H] | [(_ & _ & H) | (t0 & _ & _ & H)]];
        rewrite H; simpl;
        [apply keys_getitem_extends | apply keys_setitem_extends ..]. }
    assert (Hf : Timer._func (snd (fst (step o T w))) = Timer._func T)
      by apply step_registry.
    destruct (step o T w) as [[r T1] w1]. simpl in *.
    specialize (IH T1 w1).
    destruct (run ops T1 w1) as [[rs T2] w2]. simpl in *.
    destruct IH as ((extra2 & Hk2) & Hnd2 & Hf2).
    destruct Hk as (extra1 & Hk1).
    split; [|split; [auto | congruence]].
    exists (extra1 ++ extra2). now rewrite Hk2, Hk1, app_assoc.
Qed.

(** X5.  The recorded durations of a slot are append-only: after any
    calls a slot that was registered is still registered, and its [times]
    are the former ones followed by the durations recorded since. *)
Theorem times_append_only :
  forall ops T w name s,
    lookup name (Timer._timers T) = Some s ->
    exists s' recorded,
      lookup name (Timer._timers (snd (fst (run ops T w)))) = Some s'
      /\ _Timer.times s' = _Timer.times s ++ recorded.
Proof.
  induction ops as [|o ops IH]; intros T w name s Hs; simpl.
  - exists s, []. split; [exact Hs | now rewrite app_nil_r].
  - assert (H1 : exists s1 rec1,
               lookup name (Timer._timers (snd (fst (step o T w)))) = Some s1
               /\ _Timer.times s1 = _Timer.times s ++ rec1).
    { destruct (step_spec o T w) as [[e H] | [(_ & _ & H) | (t0 & _ & _ & H)]];
        rewrite H; simpl.
      - exists s, []. split; [now apply lookup_getitem_present | now rewrite app_nil_r].
      - destruct (String.eqb_spec (op_name o) name) as [Heq|Hne].
        + rewrite Heq, lookup_setitem_eq. eexists _, []. split; [reflexivity|].
          simpl. now rewrite (slot_lookup name T s Hs), app_nil_r.
        + rewrite lookup_setitem_ne by exact Hne.
          exists s, []. split; [exact Hs | now rewrite app_nil_r].
      - destruct (String.eqb_spec (op_name o) name) as [Heq|Hne].
        + rewrite Heq, lookup_setitem_eq. eexists _, [_]. split; [reflexivity|].
          simpl. now rewrite (slot_lookup name T s Hs).
        + rewrite lookup_setitem_ne by exact Hne.
          exists s, []. split; [exact Hs | now rewrite app_nil_r]. }
    destruct H1 as (s1 & rec1 & Hs1 & Ht1).
    destruct (step o T w) as [[r T1] w1]. simpl in Hs1.
    destruct (IH T1 w1 name s1 Hs1) as (s2 & rec2 & Hs2 & Ht2).
    destruct (run ops T1 w1) as [[rs T2] w2]. simpl in *.
    exists s2, (rec1 ++ rec2). split; [exact Hs2|].
    now rewrite Ht2, Ht1, app_assoc.
Qed.

Lemma times_append_only_witness :
  let w := mkWorld (clock_of_ticks []) (clock_of_ticks [10; 13; 20; 24]) in
  let T := Timer.mk injected [("a"%string, _Timer.mk None [1; 2])] in
  let ops := [Start "a"; Stop "a"; Stop "a"; Start "a"]%string in
  lookup "a"%string (Timer._timers T) = Some (_Timer.mk None [1; 2])
  /\ exists s' recorded,
       lookup "a"%string (Timer._timers (snd (fst (run ops T w)))) = Some s'
       /\ _Timer.times s' = [1; 2] ++ recorded.
Proof.
  intros w T ops. split; [reflexivity|].
  exact (times_append_only ops T w "a"%string (_Timer.mk None [1; 2]) eq_refl).
Defined.

Lemma call_time_func_other f w :
  clock_of (other_clock f) (snd (call_time_func f w)) = clock_of (other_clock f) w.
Proof. now destruct f. Qed.

(** X6.  A call that returns reads the Timer's clock exactly once and a
    call that raises reads no clock: after any calls, the Timer's clock
    has been read as many times as calls returned, and the other clock is
    untouched. *)
Theorem clock_read_once_per_returning_call :
  forall ops T w,
    let f := Timer._func T in
    let '(rs, _, w') := run ops T w in
    clock_of f w'
    = mkClock (readings (clock_of f w))
              (calls (clock_of f w) + List.length (filter is_Return rs))
    /\ clock_of (other_clock f) w' = clock_of (other_clock f) w.
Proof.
  induction ops as [|o ops IH]; intros T w f; simpl.
  - rewrite Nat.add_0_r. split; [now destruct (clock_of f w) | reflexivity].
  - assert (H1 : let '(r, T1, w1) := step o T w in
                 Timer._func T1 = f
                 /\ clock_of f w1
                    = mkClock (readings (clock_of f w))
                        (calls (clock_of f w) + if is_Return r then 1 else 0)
                 /\ clock_of (other_clock f) w1 = clock_of (other_clock f) w).
    { destruct (step_spec o T w) as [[e H] | [(_ & _ & H) | (t0 & _ & _ & H)]];
        rewrite H; simpl; fold f.
      - rewrite Nat.add_0_r. split; [reflexivity|].
        split; [now destruct (clock_of f w) | reflexivity].
      - rewrite call_time_func_advances, call_time_func_other, Nat.add_1_r. auto.
      - rewrite call_time_func_advances, call_time_func_other, Nat.add_1_r. auto. }
    destruct (step o T w) as [[r T1] w1]. destruct H1 as (Hf & Hc & Ho).
    specialize (IH T1 w1). rewrite Hf in IH. simpl in IH.
    destruct (run ops T1 w1) as [[rs T2] w2]. destruct IH as [Hc2 Ho2].
    split; [|congruence].
    rewrite Hc2, Hc. simpl. f_equal.
    destruct (is_Return r); simpl; lia.
Qed.

Lemma registry_only_grows_witness :
  let w := mkWorld (clock_of_ticks []) (clock_of_ticks [1; 2]) in
  let T := Timer.mk injected [("b"%string, _Timer.mk None [3])] in
  let ops := [Stop "a"; Start "b"; Start "c"]%string in
  NoDup (keys (Timer._timers T))
  /\ keys (Timer._timers (snd (fst (run ops T w)))) = ["b"; "a"; "c"]%string
  /\ NoDup (keys (Timer._timers (snd (fst (run ops T w))))).
Proof.
  intros w T ops.
  assert (Hnd : NoDup (keys (Timer._timers T))).
  { repeat constructor. simpl. tauto. }
  split; [exact Hnd|]. split; [reflexivity|].
  exact (proj1 (proj2 (registry_only_grows ops T w)) Hnd).
Defined.

(** ** A clock that never goes back *)

Lemma sum_nonneg l : Forall (fun d => 0 <= d) l -> 0 <= sum l.
Proof.
  induction 1 as [|d l Hd Hl IH]; [reflexivity|].
  rewrite sum_cons. lia.
Qed.

Lemma lookup_getitem_inv name k s (d : list (string * _Timer.t)) :
  lookup k (snd (Timer.getitem name d)) = Some s ->
  lookup k d = Some s \/ s = _Timer.__init__.
Proof.
  unfold Timer.getitem. destruct (lookup name d) eqn:L; simpl; [now left|].
  destruct (String.eqb_spec name k) as [<-|Hne].
  - rewrite (lookup_app_fresh _ _ _ L). intros H. right. congruence.
  - rewrite lookup_app_other by exact Hne. now left.
Qed.

Lemma lookup_setitem_inv {V : Type} name k (v s : V) d :
  lookup k (setitem name v d) = Some s ->
  (k = name /\ s = v) \/ (k <> name /\ lookup k d = Some s).
Proof.
  destruct (String.eqb_spec name k) as [<-|Hne].
  - rewrite lookup_setitem_eq. intros H. left. split; congruence.
  - rewrite lookup_setitem_ne by exact Hne. intros H. right. split; congruence.
Qed.

Lemma well_timed_slot r k T name :
  well_timed r k T ->
  Forall (fun d => 0 <= d) (_Timer.times (slot name T))
  /\ forall t, _Timer.start (slot name T) = Some t -> exists i, (i < k)%nat /\ t = r i.
Proof.
  intros Hwt. unfold slot, Timer.getitem.
  destruct (lookup name (Timer._timers T)) as [s|] eqn:L; simpl.
  - exact (Hwt name s L).
  - split; [constructor | discriminate].
Qed.

Lemma well_timed_later r k k' T :
  (k <= k')%nat -> well_timed r k T -> well_timed r k' T.
Proof.
  intros Hle Hwt n s Hs. destruct (Hwt n s Hs) as [Hall Hstart].
  split; [exact Hall|]. intros t Ht.
  destruct (Hstart t Ht) as (i & Hi & ->). exists i. split; [lia | reflexivity].
Qed.

Lemma step_well_timed o T w :
  let c := clock_of (Timer._func T) w in
  monotonic c ->
  well_timed (readings c) (calls c) T ->
  let '(_, T1, w1) := step o T w in
  well_timed (readings c) (calls (clock_of (Timer._func T) w1)) T1
  /\ readings (clock_of (Timer._func T) w1) = readings c
  /\ Timer._func T1 = Timer._func T.
Proof.
  intros c Hmono Hwt.
  destruct (well_timed_slot _ _ _ (op_name o) Hwt) as [Hslot_times Hslot_start].
  destruct (step_spec o T w) as [[e H] | [(_ & Hidle & H) | (t0 & _ & Hrun & H)]];
    rewrite H; clear H.
  - split; [|split; reflexivity]. fold c.
    intros n s Hs. simpl in Hs.
    destruct (lookup_getitem_inv _ _ _ _ Hs) as [Hold | ->].
    + exact (Hwt n s Hold).
    + split; [constructor | discriminate].
  - rewrite call_time_func_advances. fold c. simpl.
    split; [|split; reflexivity].
    intros n s Hs. simpl in Hs.
    destruct (lookup_setitem_inv _ _ _ _ _ Hs) as [[_ ->] | [_ Hold]].
    + simpl. split; [exact Hslot_times|].
      intros t Ht. injection Ht as <-. exists (calls c).
      split; [lia | apply call_time_func_reading].
    + exact (well_timed_later _ _ _ _ (Nat.le_succ_diag_r _) Hwt n s Hold).
  - rewrite call_time_func_advances. fold c. simpl.
    split; [|split; reflexivity].
    intros n s Hs. simpl in Hs.
    destruct (lookup_setitem_inv _ _ _ _ _ Hs) as [[_ ->] | [_ Hold]].
    + simpl. split; [|discriminate].
      apply Forall_app. split; [exact Hslot_times|].
      constructor; [|constructor].
      destruct (Hslot_start t0 Hrun) as (i & Hi & ->).
      rewrite call_time_func_reading. fold c.
      assert (readings c i <= readings c (calls c)) by (apply Hmono; lia). lia.
    + exact (well_timed_later _ _ _ _ (Nat.le_succ_diag_r _) Hwt n s Hold).
Qed.

Lemma run_well_timed ops : forall T w,
  let c := clock_of (Timer._func T) w in
  monotonic c ->
  well_timed (readings c) (calls c) T ->
  exists k, well_timed (readings c) k (snd (fst (run ops T w))).
Proof.
  induction ops as [|o ops IH]; intros T w c Hmono Hwt; simpl.
  - now exists (calls c).
  - pose proof (step_well_timed o T w Hmono Hwt) as Hstep.
    destruct (step o T w) as [[r T1] w1]. fold c in Hstep.
    destruct Hstep as (Hwt1 & Hr & Hf).
    specialize (IH T1 w1). rewrite Hf in IH. simpl in IH. rewrite Hr in IH.
    destruct (run ops T1 w1) as [[rs T2] w2]. simpl.
    apply IH; [|exact Hwt1].
    intros i j Hij. rewrite Hr. apply Hmono, Hij.
Qed.

(** X7.  On a clock that never goes back no negative duration is ever
    recorded: after any calls on a Timer whose recorded durations were
    non-negative and whose running slots were started at past readings of
    its clock (a new Timer, for one), every recorded duration of every slot
    is non-negative, and so is the value [elapsed] returns for every slot
    that is not running. *)
Theorem monotonic_clock_durations_nonnegative :
  forall ops T w,
    let c := clock_of (Timer._func T) w in
    monotonic c ->
    well_timed (readings c) (calls c) T ->
    forall name s,
      lookup name (Timer._timers (snd (fst (run ops T w)))) = Some s ->
      Forall (fun d => 0 <= d) (_Timer.times s)
      /\ (_Timer.start s = None ->
          forall w' v, fst (_Timer.elapsed s w') = Return v -> 0 <= v).
Proof.
  intros ops T w c Hmono Hwt name s Hs.
  destruct (run_well_timed ops T w Hmono Hwt) as (k & Hwt').
  destruct (Hwt' name s Hs) as [Hall _].
  split; [exact Hall|].
  intros Hidle w' v. rewrite (elapsed_idle s w' Hidle). simpl.
  apply int_to_float_nonneg. now apply sum_nonneg.
Qed.

Lemma monotonic_clock_durations_nonnegative_witness :
  let w := mkWorld (clock_of_ticks []) (mkClock (fun i => Z.of_nat i * 3) 0) in
  let ops := [Start "a"; Start "b"; Stop "a"; Stop "b"; Start "a"]%string in
  monotonic (clock_of injected w)
  /\ well_timed (readings (clock_of injected w)) 0 (Timer.__init__ injected)
  /\ lookup "b"%string
       (Timer._timers (snd (fst (run ops (Timer.__init__ injected) w))))
     = Some (_Timer.mk None [6])
  /\ Forall (fun d => 0 <= d) [6].
Proof.
  intros w ops.
  assert (Hmono : monotonic (clock_of injected w)).
  { intros i j Hij. simpl. lia. }
  assert (Hwt : well_timed (readings (clock_of injected w)) 0 (Timer.__init__ injected)).
  { intros n s Hs. discriminate Hs. }
  split; [exact Hmono|]. split; [exact Hwt|]. split; [reflexivity|].
  exact (proj1 (monotonic_clock_durations_nonnegative ops (Timer.__init__ injected) w
                  Hmono Hwt "b"%string (_Timer.mk None [6]) eq_refl)).
Defined.

(** ** Nested blocks, and a Timer at rest *)

(** X8.  A Timer is not re-entrant as a context manager: inside
    [with timer:] a nested [with timer:] raises [Already started] from its
    [__enter__], so the inner block is never run; the failure leaves the
    outer block, whose [__exit__] stops "main". *)
Theorem nested_with_already_started :
  forall (A : Type) (inner : Timer.t -> World -> outcome A * Timer.t * World) T w,
    running (slot "main" T) = false ->
    fst (fst (with_ (with_ inner) T w)) = Raise (Timer.already_started "main")
    /\ running (slot "main" (snd (fst (with_ (with_ inner) T w)))) = false
    /\ forall inner' : Timer.t -> World -> outcome A * Timer.t * World,
         with_ (with_ inner') T w = with_ (with_ inner) T w.
Proof.
  intros A inner T w Hidle. apply running_false_start in Hidle.
  assert (Hshape : forall body : Timer.t -> World -> outcome A * Timer.t * World,
             exists T3 w3,
               with_ (with_ body) T w = (Raise (Timer.already_started "main"), T3, w3)
               /\ T3 = snd (fst (Timer.stop "main"
                                   (snd (fst (Timer.start "main" T w)))
                                   (snd (Timer.start "main" T w))))
               /\ w3 = snd (Timer.stop "main"
                              (snd (fst (Timer.start "main" T w)))
                              (snd (Timer.start "main" T w)))).
  { intros body. unfold with_ at 1. unfold Timer.__enter__, Timer.__exit__.
    rewrite (start_idle _ _ _ Hidle). simpl.
    set (T1 := Timer.mk _ _). set (w1 := snd (call_time_func _ w)).
    assert (H1 : _Timer.start (slot "main" T1)
                 = Some (fst (call_time_func (Timer._func T) w)))
      by (unfold T1; now rewrite slot_setitem).
    unfold with_, Timer.__enter__. rewrite (start_running _ _ _ _ H1).
    rewrite (stop_running _ _ _ _ H1). simpl. eexists _, _. repeat split. }
  destruct (Hshape inner) as (T3 & w3 & Hw & HT3 & Hw3).
  split; [now rewrite Hw|]. split.
  - rewrite Hw. simpl. rewrite HT3. apply stop_leaves_idle.
  - intros inner'. destruct (Hshape inner') as (T3' & w3' & Hw' & HT3' & Hw3').
    rewrite Hw, Hw'. congruence.
Qed.

Lemma nested_with_already_started_witness :
  let w := mkWorld (clock_of_ticks [2; 5]) (clock_of_ticks []) in
  let inner := fun (T : Timer.t) (w : World) => (Return 1, T, w) in
  running (slot "main" (Timer.__init__ perf_counter)) = false
  /\ fst (fst (with_ (with_ inner) (Timer.__init__ perf_counter) w))
     = Raise (Timer.already_started "main")
  /\ snd (fst (with_ (with_ inner) (Timer.__init__ perf_counter) w))
     = Timer.mk perf_counter [("main"%string, _Timer.mk None [3])].
Proof.
  intros w inner. split; [reflexivity|]. split; [|reflexivity].
  exact (proj1 (nested_with_already_started Z inner
                  (Timer.__init__ perf_counter) w eq_refl)).
Defined.






(** * Further properties of TimedMetaClass *)






(** X12.  An inherited function is timed once, not once per class of the
    hierarchy: when class A binds [n] to a function (with a name that
    does not start with two underscores) and class B, built on the
    instrumented A, does not bind [n], looking [n] up on the instrumented B
    finds the wrapper A got, not a wrapper of that wrapper. *)
Theorem inherited_function_wrapped_once :
  forall nameA basesA attrsA nameB more_bases attrsB n f,
    NoDup (keys attrsA) -> NoDup (keys attrsB) ->
    lookup n attrsA = Some (AFunction f) ->
    TimedMetaClass.startswith__ n = false -> n <> "timer"%string ->
    lookup n attrsB = None ->
    exists A B,
      TimedMetaClass.__new__ nameA basesA attrsA = Return A
      /\ TimedMetaClass.__new__ nameB (A :: more_bases) attrsB = Return B
      /\ getattr_class n B = Some (AFunction (TimedMetaClass.fn_ f)).
Proof.
  intros nameA basesA attrsA nameB more_bases attrsB n f HndA HndB Hf Hs Ht HB.
  pose proof (not_startswith___not_init n Hs) as Hi.
  destruct (new_class_dict nameA basesA attrsA HndA) as (dictA & HA & _ & _ & HlA).
  destruct (new_class_dict nameB (Class nameA basesA dictA :: more_bases) attrsB HndB)
    as (dictB & HnewB & _ & _ & HlB).
  eexists _, _. split; [exact HA|]. split; [exact HnewB|].
  cbn [getattr_class]. rewrite (HlB n Ht Hi), HB. cbn [option_map].
  rewrite (HlA n Ht Hi), Hf. cbn. now rewrite Hs.
Qed.

Lemma inherited_function_wrapped_once_witness :
  let attrsA := [("compute"%string, AFunction compute_42)] in
  NoDup (keys attrsA)
  /\ exists A B,
       TimedMetaClass.__new__ "A" [] attrsA = Return A
       /\ TimedMetaClass.__new__ "B" [A] [] = Return B
       /\ getattr_class "compute" B = Some (AFunction (TimedMetaClass.fn_ compute_42)).
Proof.
  intros attrsA.
  assert (Hnd : NoDup (keys attrsA)) by (repeat constructor; simpl; tauto).
  split; [exact Hnd|].
  refine (inherited_function_wrapped_once "A"%string [] attrsA "B"%string [] []
            "compute"%string compute_42 Hnd (NoDup_nil _) eq_refl eq_refl _ eq_refl).
  discriminate.
Defined.

(** X13.  A wrapper of a wrapper cannot be called: the two wrappers use
    the same slot (the wrapper carries the name of the function it wraps),
    so on an instance whose slot of that name is not running the inner
    [start] raises [Already started]; the function itself is never run, and
    the outer wrapper stops the slot, recording one duration. *)
Theorem wrapper_of_wrapper_already_started :
  forall fn args self w tm,
    _timer self = Some tm ->
    running (slot (__name__ fn) tm) = false ->
    exists tm' w',
      call (TimedMetaClass.fn_ (TimedMetaClass.fn_ fn)) args self w
      = (Raise (Timer.already_started (__name__ fn)), set_timer tm' self, w')
      /\ slot (__name__ fn) tm'
         = _Timer.mk None
             (_Timer.times (slot (__name__ fn) tm)
                ++ [readings (clock_of (Timer._func tm) w)
                             (S (calls (clock_of (Timer._func tm) w)))
                    - readings (clock_of (Timer._func tm) w)
                               (calls (clock_of (Timer._func tm) w))]).
Proof.
  intros fn args self w tm Htm Hidle. apply running_false_start in Hidle.
  unfold call at 1.
  cbn [TimedMetaClass.fn_ __params__ accepts __code__ __name__].
  rewrite Htm, (start_idle _ _ _ Hidle).
  set (T1 := Timer.mk _ _). set (w1 := snd (call_time_func _ w)).
  assert (H1 : _Timer.start (slot (__name__ fn) T1)
               = Some (fst (call_time_func (Timer._func tm) w)))
    by (unfold T1; now rewrite slot_setitem).
  unfold call at 1.
  cbn [TimedMetaClass.fn_ __params__ accepts __code__ __name__ set_timer _timer].
  rewrite (start_running _ _ _ _ H1).
  cbn [set_timer _timer]. rewrite (stop_running _ _ _ _ H1).
  cbn [set_timer __dict__].
  eexists _, _. split; [reflexivity|].
  rewrite slot_setitem. unfold T1 at 1. rewrite slot_setitem. cbn [_Timer.times].
  unfold T1, w1. cbn [Timer._func].
  rewrite !call_time_func_reading, call_time_func_advances. reflexivity.
Qed.

Lemma wrapper_of_wrapper_already_started_witness :
  let w := mkWorld (clock_of_ticks [3; 8]) (clock_of_ticks []) in
  let self := mkInstance (Some (Timer.__init__ perf_counter)) [] in
  exists tm' w',
    call (TimedMetaClass.fn_ (TimedMetaClass.fn_ compute_42)) [] self w
    = (Raise (Timer.already_started "compute"), set_timer tm' self, w')
    /\ slot "compute" tm' = _Timer.mk None [5].
Proof.
  intros w self.
  exact (wrapper_of_wrapper_already_started compute_42 [] self w
           (Timer.__init__ perf_counter) eq_refl eq_refl).
Defined.

(** * Singleton *)

Lemma find_store_eq k v d : Singleton.find k (Singleton.store k v d) = Some v.
Proof.
  induction d as [|[k' v'] d IH]; simpl.
  - now rewrite Nat.eqb_refl.
  - destruct (Nat.eqb k k') eqn:E; simpl; rewrite E; auto.
Qed.

Lemma find_store_ne k k' v d :
  k <> k' -> Singleton.find k' (Singleton.store k v d) = Singleton.find k' d.
Proof.
  intros Hne. induction d as [|[k0 v0] d IH]; simpl.
  - destruct (Nat.eqb_spec k' k); [congruence | reflexivity].
  - destruct (Nat.eqb_spec k k0) as [->|Hk]; simpl.
    + destruct (Nat.eqb_spec k' k0); [congruence | reflexivity].
    + now rewrite IH.
Qed.

(** X14.  The first call of a class that has no instance yet creates the
    instance from the unpacked argument, keeps it in the heap and registers
    it; every later call of that class, whatever its argument (iterable or
    not), returns that same object without creating anything: state and
    clocks are unchanged. *)
Theorem singleton_creates_once :
  forall self a items inst st w w',
    Singleton.find (Singleton.cls_id self) (Singleton._instances st) = None ->
    Singleton.unpack a = Return items ->
    construct (Singleton.cls_def self) items w = (Return inst, w') ->
    exists obj st',
      Singleton.__call__ self [a] st w = (Return obj, st', w')
      /\ nth_error (Singleton.heap st') obj = Some inst
      /\ forall b w2, Singleton.__call__ self [b] st' w2 = (Return obj, st', w2).
Proof.
  intros self a items inst st w w' Hmiss Hunpack Hcons.
  unfold Singleton.__call__ at 1. rewrite Hmiss, Hunpack, Hcons.
  cbn [Singleton._instances]. rewrite find_store_eq.
  eexists _, _. split; [reflexivity|]. split.
  - cbn [Singleton.heap]. rewrite nth_error_app2 by lia.
    now rewrite Nat.sub_diag.
  - intros b w2. unfold Singleton.__call__. cbn [Singleton._instances].
    now rewrite find_store_eq.
Qed.

Lemma singleton_creates_once_witness :
  let w := mkWorld (clock_of_ticks []) (clock_of_ticks []) in
  let cls := Singleton.mkRef 4 (Class "Config" [] [("__init__"%string, AFunction init_x)]) in
  let st := Singleton.mkState [] [] in
  exists obj st',
    Singleton.__call__ cls [Singleton.Tuple [VInt 8]] st w = (Return obj, st', w)
    /\ nth_error (Singleton.heap st') obj
       = Some (mkInstance None [("x"%string, VInt 8)])
    /\ Singleton.__call__ cls [Singleton.Obj (VInt 9)] st' w = (Return obj, st', w).
Proof.
  intros w cls st.
  destruct (singleton_creates_once cls (Singleton.Tuple [VInt 8]) [VInt 8]
              (mkInstance None [("x"%string, VInt 8)]) st w w
              eq_refl eq_refl eq_refl) as (obj & st' & Hcall & Hheap & Hagain).
  exists obj, st'. split; [exact Hcall|]. split; [exact Hheap | apply Hagain].
Defined.

(** X15.  No call replaces a registered instance or touches another
    class: after any call the entries of the other classes are as before
    and the heap has only grown; a class that had an instance still has
    that one, and the call changed nothing; a call that raises leaves the
    state as it was, so nothing is registered for a creation that failed. *)
Theorem singleton_registry_stable :
  forall self positional st w,
    let '(r, st', w') := Singleton.__call__ self positional st w in
    (forall k, k <> Singleton.cls_id self ->
               Singleton.find k (Singleton._instances st')
               = Singleton.find k (Singleton._instances st))
    /\ (exists more, Singleton.heap st' = Singleton.heap st ++ more)
    /\ (forall obj,
           Singleton.find (Singleton.cls_id self) (Singleton._instances st) = Some obj ->
           st' = st /\ w' = w
           /\ forall a, positional = [a] -> r = Return obj)
    /\ (is_Return r = false -> st' = st).
Proof.
  intros self positional st w.
  assert (Hheap : exists more, Singleton.heap st = Singleton.heap st ++ more)
    by (exists []; now rewrite app_nil_r).
  unfold Singleton.__call__.
  destruct positional as [|a [|b rest]].
  - split; [reflexivity|]. split; [exact Hheap|]. split; [|reflexivity].
    intros obj _. repeat split. intros a Ha. discriminate.
  - destruct (Singleton.find (Singleton.cls_id self) (Singleton._instances st))
      as [obj|] eqn:Hfind.
    + split; [reflexivity|]. split; [exact Hheap|]. split; [|reflexivity].
      intros obj' Hobj. repeat split. intros a0 _. congruence.
    + destruct (Singleton.unpack a) as [items|e].
      * destruct (construct (Singleton.cls_def self) items w) as [[inst|e] w'].
        -- cbn [Singleton._instances]. rewrite find_store_eq.
           split; [|split; [|split]].
           ++ intros k Hk. cbn. apply find_store_ne. congruence.
           ++ cbn. now exists [inst].
           ++ intros obj Hobj. discriminate.
           ++ intros H. discriminate.
        -- split; [reflexivity|]. split; [exact Hheap|]. split; [|reflexivity].
           intros obj Hobj. discriminate.
      * split; [reflexivity|]. split; [exact Hheap|]. split; [|reflexivity].
        intros obj Hobj. discriminate.
  - split; [reflexivity|]. split; [exact Hheap|]. split; [|reflexivity].
    intros obj _. repeat split. intros a0 Ha. discriminate.
Qed.

Lemma singleton_registry_stable_witness :
  let w := mkWorld (clock_of_ticks []) (clock_of_ticks []) in
  let cls := Singleton.mkRef 4 (Class "Config" [] [("__init__"%string, AFunction init_x)]) in
  let st := Singleton.mkState [mkInstance None []] [(7%nat, 0%nat)] in
  (* the initializer wants one argument and gets two: nothing is registered *)
  is_Return (fst (fst (Singleton.__call__ cls [Singleton.Tuple [VInt 1; VInt 2]] st w)))
  = false
  /\ snd (fst (Singleton.__call__ cls [Singleton.Tuple [VInt 1; VInt 2]] st w)) = st.
Proof.
  intros w cls st.
  pose proof (singleton_registry_stable cls [Singleton.Tuple [VInt 1; VInt 2]] st w) as H.
  destruct (Singleton.__call__ cls [Singleton.Tuple [VInt 1; VInt 2]] st w)
    as [[r st'] w'] eqn:E.
  destruct H as (_ & _ & _ & Hfail).
  assert (Hr : is_Return r = false).
  { vm_compute in E. injection E as <- _ _. reflexivity. }
  split; [exact Hr | exact (Hfail Hr)].
Defined.

(** * Switch *)

Section SwitchFacts.
Context {V : Type} (eqb : V -> V -> bool).

(** [self.value in args] *)
Let holds (v : V) (args : list V) : bool := existsb (eqb v) args.
Let no_args (args : list V) : bool :=
  match args with [] => true | _ :: _ => false end.

Lemma switch_cases_from cs : forall (self : Switch.t V),
  snd (Switch.cases eqb cs self)
  = Switch.mk (Switch.value self)
      (Switch.fall self || existsb (holds (Switch.value self)) cs)
  /\ forall i args,
       nth_error cs i = Some args ->
       nth_error (fst (Switch.cases eqb cs self)) i
       = Some (Switch.fall self || no_args args
               || existsb (holds (Switch.value self)) (firstn (S i) cs)).
Proof.
  induction cs as [|c cs IH]; intros [v fl].
  - simpl. rewrite orb_false_r. split; [reflexivity|].
    intros [|i] args H; discriminate.
  - cbn [Switch.cases]. unfold Switch.match_. cbn [Switch.fall Switch.value].
    fold (no_args c). fold (holds v c).
    destruct (fl || no_args c) eqn:E1.
    + destruct (IH (Switch.mk v fl)) as [Hst Hres].
      destruct (Switch.cases eqb cs (Switch.mk v fl)) as [rs self2].
      cbn [fst snd Switch.fall Switch.value] in *.
      assert (Hc : fl = true \/ holds v c = false).
      { destruct fl; [now left|]. right. simpl in E1.
        destruct c; [reflexivity | discriminate]. }
      split.
      * rewrite Hst. f_equal. cbn [existsb].
        destruct Hc as [-> | ->]; reflexivity.
      * intros [|i] args Hi.
        -- injection Hi as <-. cbn. rewrite E1. reflexivity.
        -- cbn [nth_error] in Hi |- *. rewrite (Hres i args Hi).
           cbn [firstn existsb].
           destruct Hc as [-> | ->]; reflexivity.
    + apply orb_false_iff in E1. destruct E1 as [-> E1].
      destruct (holds v c) eqn:E2.
      * destruct (IH (Switch.mk v true)) as [Hst Hres].
        destruct (Switch.cases eqb cs (Switch.mk v true)) as [rs self2].
        cbn [fst snd Switch.fall Switch.value] in *.
        split.
        -- rewrite Hst. cbn [existsb]. now rewrite E2.
        -- intros [|i] args Hi.
           ++ injection Hi as <-. cbn [nth_error firstn existsb].
              rewrite E2, E1. reflexivity.
           ++ cbn [nth_error] in Hi |- *. rewrite (Hres i args Hi).
              cbn [firstn existsb]. rewrite E2.
              now rewrite orb_true_r.
      * destruct (IH (Switch.mk v false)) as [Hst Hres].
        destruct (Switch.cases eqb cs (Switch.mk v false)) as [rs self2].
        cbn [fst snd Switch.fall Switch.value] in *.
        split.
        -- rewrite Hst. cbn [existsb]. now rewrite E2.
        -- intros [|i] args Hi.
           ++ injection Hi as <-. cbn [nth_error firstn existsb].
              rewrite E2, E1. reflexivity.
           ++ cbn [nth_error] in Hi |- *. rewrite (Hres i args Hi).
              cbn [firstn existsb]. now rewrite E2.
Qed.

(** X16.  The tests of a [Switch(v)], evaluated in order on the new
    object: a test answers True exactly when it has no argument (the
    default case) or [v] is among the arguments of this test or of an
    earlier one (fall-through); a default test alone does not make the
    later tests true.  At the end [fall] is set iff some test had [v]
    among its arguments, and [value] is unchanged. *)
Theorem switch_cases_fall_through :
  forall v cs,
    snd (Switch.cases eqb cs (Switch.__init__ v))
    = Switch.mk v (existsb (fun args => existsb (eqb v) args) cs)
    /\ forall i args,
         nth_error cs i = Some args ->
         nth_error (fst (Switch.cases eqb cs (Switch.__init__ v))) i
         = Some (match args with [] => true | _ :: _ => false end
                 || existsb (fun args' => existsb (eqb v) args') (firstn (S i) cs)).
Proof.
  intros v cs. destruct (switch_cases_from cs (Switch.__init__ v)) as [Hst Hres].
  split; [exact Hst|].
  intros i args Hi. exact (Hres i args Hi).
Qed.
End SwitchFacts.

Lemma switch_cases_fall_through_witness :
  let cs := [[1; 2]; []; [3]; [4; 5]; []; [6]] in
  nth_error cs 3 = Some [4; 5]
  /\ fst (Switch.cases Z.eqb cs (Switch.__init__ 3))
     = [false; true; true; true; true; true]
  /\ nth_error (fst (Switch.cases Z.eqb cs (Switch.__init__ 3))) 3 = Some true.
Proof.
  intros cs. split; [reflexivity|]. split; [reflexivity|].
  exact (proj2 (switch_cases_fall_through Z.eqb 3 cs) 3%nat [4; 5] eq_refl).
Defined.
